(** * testrabbit.py: an AMQP 0-9-1 handshake probe

    A shallow embedding of [src/testrabbit.py].  The script opens a TCP
    connection to a broker, writes five hand-built byte strings to it with a
    blind [recv] after each one, prints the last reply and closes the socket.

    The embedding keeps the script's shape:
    - Python [bytes] are lists of [Byte.byte];
    - Python integers are [Z]; [struct.pack] checks its ranges and raises;
    - Python [str] values are lists of code points, [str.encode] is UTF-8;
    - the module body is a term of a small interaction monad ([script]) whose
      operations are the socket calls, [print] and raising an exception;
    - the broker is a [network]: it decides what each socket call returns. *)

From Stdlib Require Import ZArith NArith List Bool Lia String Ascii.
From Stdlib.Strings Require Import Byte.
Import ListNotations.
Open Scope Z_scope.

(** ** Python values *)

Definition bytes := list byte.

(** A Python [str]: its code points, each in [0, 0x10FFFF]. *)
Definition pystr := list N.

Definition str_of_string (s : string) : pystr :=
  map (fun a => N_of_ascii a) (list_ascii_of_string s).

(** A bytes literal written with printable ASCII characters only. *)
Definition bytes_of_string (s : string) : bytes := list_byte_of_string s.

Definition len {A : Type} (l : list A) : Z := Z.of_nat (List.length l).

(** The format codes of [struct] that the script uses. *)
Inductive fmt : Type :=
| FB  (* 'B': unsigned char, 1 byte *)
| FH  (* 'H': unsigned short, 2 bytes *)
| FI. (* 'I': unsigned int, 4 bytes *)

(** The exceptions the script can die of. *)
Inductive exn : Type :=
| StructRange (code : fmt)  (* struct.error: 'X' format requires 0 <= number <= max *)
| StructArity               (* struct.error: pack expected n items for packing *)
| UnicodeEncodeError        (* str.encode on a lone surrogate *)
| OSError.                  (* any failure of a socket call *)

Inductive result (A : Type) : Type :=
| Ok (a : A)
| Err (e : exn).
Arguments Ok {A} a.
Arguments Err {A} e.

Definition rbind {A B : Type} (r : result A) (k : A -> result B) : result B :=
  match r with
  | Ok a => k a
  | Err e => Err e
  end.

(** ** Bytes and integers *)

Definition Z_of_byte (b : byte) : Z := Z.of_N (Byte.to_N b).

Definition byte_of_Z (z : Z) : byte :=
  match Byte.of_N (Z.to_N (z mod 256)) with
  | Some b => b
  | None => x00
  end.

(** The [n] low-order bytes of [v], most significant first. *)
Fixpoint be_bytes (n : nat) (v : Z) : bytes :=
  match n with
  | O => []
  | S n' => byte_of_Z (Z.shiftr v (8 * Z.of_nat n')) :: be_bytes n' v
  end.

(** The unsigned integer a big-endian byte string denotes. *)
Fixpoint be_int (bs : bytes) : Z :=
  match bs with
  | [] => 0
  | b :: r => Z_of_byte b * 256 ^ len r + be_int r
  end.

(** ** struct.pack with a '!' (network order, standard size) format *)

Definition fmt_size (f : fmt) : nat :=
  match f with
  | FB => 1%nat
  | FH => 2%nat
  | FI => 4%nat
  end.

Definition fmt_bound (f : fmt) : Z := 256 ^ Z.of_nat (fmt_size f).

Definition in_range (f : fmt) (v : Z) : bool :=
  (0 <=? v) && (v <? fmt_bound f).

Fixpoint pack_items (fs : list fmt) (vs : list Z) : result bytes :=
  match fs, vs with
  | f :: fs', v :: vs' =>
      if in_range f v
      then rbind (pack_items fs' vs') (fun rest => Ok (be_bytes (fmt_size f) v ++ rest))
      else Err (StructRange f)
  | _, _ => Ok []
  end.

(** [struct.pack('!' + fs, *vs)]: the number of values is checked first, then
    each value against the range of its code, left to right. *)
Definition pack (fs : list fmt) (vs : list Z) : result bytes :=
  if Nat.eqb (List.length fs) (List.length vs) then pack_items fs vs else Err StructArity.

(** ** str.encode() and bytes.join *)

Definition utf8_cont (c : Z) : byte := byte_of_Z (Z.lor 128 (Z.land c 63)).

(** UTF-8 of one code point; [None] for a surrogate (and for a number that is
    no code point at all, which no Python [str] holds). *)
Definition utf8_encode_cp (cp : N) : option bytes :=
  let c := Z.of_N cp in
  if c <? 128 then Some [byte_of_Z c]
  else if c <? 2048 then
    Some [byte_of_Z (Z.lor 192 (Z.shiftr c 6)); utf8_cont c]
  else if c <? 65536 then
    if (55296 <=? c) && (c <=? 57343) then None
    else Some [byte_of_Z (Z.lor 224 (Z.shiftr c 12));
               utf8_cont (Z.shiftr c 6); utf8_cont c]
  else if c <? 1114112 then
    Some [byte_of_Z (Z.lor 240 (Z.shiftr c 18));
          utf8_cont (Z.shiftr c 12); utf8_cont (Z.shiftr c 6); utf8_cont c]
  else None.

(** [s.encode()], with the default encoding (UTF-8, errors='strict'). *)
Fixpoint encode (s : pystr) : result bytes :=
  match s with
  | [] => Ok []
  | cp :: s' =>
      match utf8_encode_cp cp with
      | Some bs => rbind (encode s') (fun rest => Ok (bs ++ rest))
      | None => Err UnicodeEncodeError
      end
  end.

(** [sep.join(parts)] *)
Fixpoint join (sep : bytes) (parts : list bytes) : bytes :=
  match parts with
  | [] => []
  | [p] => p
  | p :: rest => p ++ sep ++ join sep rest
  end.

(** ** The interaction monad of the module body *)

(** The handle [socket.create_connection] returns; the script has one. *)
Inductive socket : Type := Sock.

Inductive script (A : Type) : Type :=
| Ret (a : A)
| Throw (e : exn)
| CreateConnection (host : pystr) (port : Z) (k : socket -> script A)
| SendAll (s : socket) (data : bytes) (k : script A)
| Recv (s : socket) (bufsize : Z) (k : bytes -> script A)
| Print (label : pystr) (data : bytes) (k : script A)
| Close (s : socket) (k : script A).
Arguments Ret {A} a.
Arguments Throw {A} e.
Arguments CreateConnection {A} host port k.
Arguments SendAll {A} s data k.
Arguments Recv {A} s bufsize k.
Arguments Print {A} label data k.
Arguments Close {A} s k.

Fixpoint bind {A B : Type} (p : script A) (f : A -> script B) : script B :=
  match p with
  | Ret a => f a
  | Throw e => Throw e
  | CreateConnection h pt k => CreateConnection h pt (fun s => bind (k s) f)
  | SendAll s d k => SendAll s d (bind k f)
  | Recv s n k => Recv s n (fun r => bind (k r) f)
  | Print l d k => Print l d (bind k f)
  | Close s k => Close s (bind k f)
  end.

Definition lift {A : Type} (r : result A) : script A :=
  match r with
  | Ok a => Ret a
  | Err e => Throw e
  end.

Declare Scope script_scope.
Delimit Scope script_scope with script.
Notation "x <- p ;; q" := (bind p (fun x => q))
  (at level 61, p at next level, right associativity) : script_scope.
Notation "p ;; q" := (bind p (fun _ => q))
  (at level 61, right associativity) : script_scope.
Open Scope script_scope.

Definition create_connection (host : pystr) (port : Z) : script socket :=
  CreateConnection host port (fun s => Ret s).
Definition sendall (s : socket) (data : bytes) : script unit :=
  SendAll s data (Ret tt).
Definition recv (s : socket) (bufsize : Z) : script bytes :=
  Recv s bufsize (fun r => Ret r).
Definition print (label : pystr) (data : bytes) : script unit :=
  Print label data (Ret tt).
Definition close (s : socket) : script unit :=
  Close s (Ret tt).

(** ** The script *)

Record config : Type := Config {
  HOST : pystr;
  PORT : Z;
  USER : pystr;
  PASS : pystr;
  VHOST : pystr;
  QUEUE : pystr
}.

(** The values as the file ships them (placeholders to be filled in). *)
Definition shipped_config : config := {|
  HOST := str_of_string "10.31.220.52";
  PORT := 5672;
  USER := str_of_string "<user>";
  PASS := str_of_string "<pass>";
  VHOST := str_of_string "<vhost>";
  QUEUE := str_of_string "<queue-name>"
|}.

(** [def send_frame(sock, frame_type, channel, payload)] *)
Definition send_frame (sock : socket) (frame_type channel : Z) (payload : bytes)
  : script unit :=
  head <- lift (pack [FB; FH; FI] [frame_type; channel; len payload]) ;;
  sendall sock ((head ++ payload) ++ [xce]).

(** [b"AMQP\x00\x00\x09\x01"] *)
Definition protocol_header : bytes :=
  bytes_of_string "AMQP" ++ [x00; x00; x09; x01].

(** [resp = b"\0".join([authzid, authcid, passwd])] *)
Definition plain_response (authzid authcid passwd : bytes) : bytes :=
  join [x00] [authzid; authcid; passwd].

(** The module body, statement by statement. *)
Definition main (cfg : config) : script unit :=
  s <- create_connection (HOST cfg) (PORT cfg) ;;
  (* 1. protocol header *)
  sendall s protocol_header ;;
  (* 2. server start *)
  _ <- recv s 4096 ;;
  (* 3. Start-OK with SASL PLAIN *)
  authzid <- lift (encode (USER cfg)) ;;
  authcid <- lift (encode (USER cfg)) ;;
  passwd <- lift (encode (PASS cfg)) ;;
  let resp := plain_response authzid authcid passwd in
  resp_len <- lift (pack [FI] [len resp]) ;;
  let args := (([x00; x0c] ++ bytes_of_string "PLAIN") ++ resp_len ++ resp) ++ [x00] in
  ids <- lift (pack [FH; FH] [10; 11]) ;;
  let method := ids ++ args in
  send_frame s 1 0 method ;;
  (* 4. connection.tune *)
  _ <- recv s 4096 ;;
  (* 5. connection.open with the vhost *)
  args <- lift (encode (VHOST cfg)) ;;
  ids <- lift (pack [FH; FH; FB] [10; 40; len args]) ;;
  let method := (ids ++ args) ++ [x00; x00] in
  send_frame s 1 0 method ;;
  _ <- recv s 4096 ;;
  (* 6. channel.open *)
  ids <- lift (pack [FH; FH] [20; 10]) ;;
  send_frame s 1 1 ids ;;
  _ <- recv s 4096 ;;
  (* 7. queue.declare *)
  qname <- lift (encode (QUEUE cfg)) ;;
  ids <- lift (pack [FH; FH; FH] [50; 10; 1]) ;;
  qlen <- lift (pack [FB] [len qname]) ;;
  flags <- lift (pack [FB] [8]) ;;
  let payload := (((ids ++ [x00]) ++ qlen) ++ qname) ++ flags in
  send_frame s 1 1 payload ;;
  resp <- recv s 4096 ;;
  print (str_of_string "Response bytes:") resp ;;
  close s.

(** ** The broker side, and running the script against it *)

(** What the socket calls do, call by call: whether the connection is
    accepted, whether the [i]-th [sendall] returns or raises, and what the
    [i]-th [recv] returns ([None]: it raises; [Some []]: end of stream). *)
Record network : Type := Network {
  connect_ok : bool;
  sendall_ok : nat -> bool;
  recv_reply : nat -> option bytes
}.

Inductive event : Type :=
| EvConnect (host : pystr) (port : Z) (ok : bool)
| EvSend (data : bytes) (ok : bool)
| EvRecv (bufsize : Z) (reply : option bytes)
| EvPrint (label : pystr) (data : bytes)
| EvClose.

Definition emit {A : Type} (e : event) (x : list event * result A)
  : list event * result A :=
  (e :: fst x, snd x).

(** [run net ns nr p]: the events of [p] and how it ends, [ns] sends and [nr]
    receives having been made before.  [recv] returns at most [bufsize]
    bytes. *)
Fixpoint run {A : Type} (net : network) (ns nr : nat) (p : script A)
  : list event * result A :=
  match p with
  | Ret a => ([], Ok a)
  | Throw e => ([], Err e)
  | CreateConnection h pt k =>
      if connect_ok net
      then emit (EvConnect h pt true) (run net ns nr (k Sock))
      else ([EvConnect h pt false], Err OSError)
  | SendAll _ d k =>
      if sendall_ok net ns
      then emit (EvSend d true) (run net (S ns) nr k)
      else ([EvSend d false], Err OSError)
  | Recv _ n k =>
      match recv_reply net nr with
      | Some d =>
          let got := firstn (Z.to_nat n) d in
          emit (EvRecv n (Some got)) (run net ns (S nr) (k got))
      | None => ([EvRecv n None], Err OSError)
      end
  | Print l d k => emit (EvPrint l d) (run net ns nr k)
  | Close _ k => emit EvClose (run net ns nr k)
  end.

Definition execute (net : network) (cfg : config) : list event * result unit :=
  run net 0 0 (main cfg).

Definition trace (net : network) (cfg : config) : list event :=
  fst (execute net cfg).

Definition ending (net : network) (cfg : config) : result unit :=
  snd (execute net cfg).

(** The byte strings handed to [sendall], in order. *)
Fixpoint writes (tr : list event) : list bytes :=
  match tr with
  | [] => []
  | EvSend d _ :: tr' => d :: writes tr'
  | _ :: tr' => writes tr'
  end.

(** A broker that answers every [recv] with [reply] and never fails. *)
Definition steady (reply : bytes) : network :=
  {| connect_ok := true; sendall_ok := fun _ => true;
     recv_reply := fun _ => Some reply |}.

(** A broker with no failing call. *)
Definition fault_free (net : network) : Prop :=
  connect_ok net = true /\
  (forall i, sendall_ok net i = true) /\
  (forall i, recv_reply net i <> None).

(** Two brokers that fail at the same calls; what they reply is free. *)
Definition same_faults (n1 n2 : network) : Prop :=
  connect_ok n1 = connect_ok n2 /\
  (forall i, sendall_ok n1 i = sendall_ok n2 i) /\
  (forall i, recv_reply n1 i = None <-> recv_reply n2 i = None).

(** ** Reading the wire *)

Fixpoint bytes_eqb (a b : bytes) : bool :=
  match a, b with
  | [], [] => true
  | x :: a', y :: b' => Byte.eqb x y && bytes_eqb a' b'
  | _, _ => false
  end.

(** What a byte string on the wire is: the protocol header, or a method frame
    (frame type 1) with the class and method ids that open its payload. *)
Inductive wire_kind : Type :=
| KHeader
| KMethod (class_id method_id : Z)
| KOther.

Definition classify (data : bytes) : wire_kind :=
  if bytes_eqb data protocol_header then KHeader
  else match data with
       | t :: _ :: _ :: _ :: _ :: _ :: _ :: c1 :: c2 :: m1 :: m2 :: _ =>
           if Z_of_byte t =? 1
           then KMethod (be_int [c1; c2]) (be_int [m1; m2])
           else KOther
       | _ => KOther
       end.

(** The socket traffic of a run, with every write classified. *)
Inductive step : Type :=
| StSend (k : wire_kind)
| StRecv.

Fixpoint steps (tr : list event) : list step :=
  match tr with
  | [] => []
  | EvSend d _ :: tr' => StSend (classify d) :: steps tr'
  | EvRecv _ _ :: tr' => StRecv :: steps tr'
  | _ :: tr' => steps tr'
  end.

Definition handshake_order : list step :=
  [StSend KHeader; StRecv;
   StSend (KMethod 10 11); StRecv;
   StSend (KMethod 10 40); StRecv;
   StSend (KMethod 20 10); StRecv;
   StSend (KMethod 50 10); StRecv].

(** The reply the protocol has the broker make to the [i]-th write. *)
Definition expected_reply (i : nat) : wire_kind :=
  match i with
  | 0%nat => KMethod 10 10
  | 1%nat => KMethod 10 30
  | 2%nat => KMethod 10 41
  | 3%nat => KMethod 20 11
  | _ => KMethod 50 11
  end.

(** "The script checks each reply": a reply that is not the expected method
    stops it, so that nothing is written after it. *)
Definition validates_replies : Prop :=
  forall net cfg i reply,
    recv_reply net i = Some reply ->
    classify reply <> expected_reply i ->
    (List.length (writes (trace net cfg)) <= S i)%nat.

(** "End of stream after Start-OK is reported as a failure": the run does not
    end normally and never gets to [channel.open]. *)
Definition fails_when_closed_after_start_ok : Prop :=
  forall net cfg,
    recv_reply net 1 = Some [] ->
    ending net cfg <> Ok tt /\
    ~ In (StSend (KMethod 20 10)) (steps (trace net cfg)).

(** The flags of [queue.declare], in the order the protocol lists them; AMQP
    0-9-1 packs consecutive bits into one octet from the low bit up. *)
Inductive declare_flag : Type :=
| Passive | Durable | Exclusive | AutoDelete | NoWait.

Definition flag_bit (f : declare_flag) : Z :=
  match f with
  | Passive => 0
  | Durable => 1
  | Exclusive => 2
  | AutoDelete => 3
  | NoWait => 4
  end.

Definition flag_set (flags : byte) (f : declare_flag) : bool :=
  Z.testbit (Z_of_byte flags) (flag_bit f).

(** The same five flags read from the high bit down instead. *)
Definition flag_set_msb (flags : byte) (f : declare_flag) : bool :=
  Z.testbit (Z_of_byte flags) (7 - flag_bit f).

(** The last byte of a frame's payload: the one before the frame end. *)
Definition last_payload_byte (frame : bytes) : option byte :=
  nth_error frame (List.length frame - 2).

(** ** The script as a straight line

    No statement of the script looks at a reply before the final [print], so a
    run is a fixed list of socket calls, cut short by the first failure.  The
    list is computed here from the configuration alone; [run_main_plan] below
    proves that running [main] and performing the list are the same. *)

Inductive op : Type :=
| OpConnect (host : pystr) (port : Z)
| OpSend (data : bytes)
| OpRecv (bufsize : Z)
| OpPrint (label : pystr)   (* prints the latest reply *)
| OpClose.

Fixpoint perform (net : network) (ns nr : nat) (latest : bytes)
    (ops : list op) (fin : result unit) : list event * result unit :=
  match ops with
  | [] => ([], fin)
  | OpConnect h pt :: r =>
      if connect_ok net
      then emit (EvConnect h pt true) (perform net ns nr latest r fin)
      else ([EvConnect h pt false], Err OSError)
  | OpSend d :: r =>
      if sendall_ok net ns
      then emit (EvSend d true) (perform net (S ns) nr latest r fin)
      else ([EvSend d false], Err OSError)
  | OpRecv n :: r =>
      match recv_reply net nr with
      | Some d =>
          let got := firstn (Z.to_nat n) d in
          emit (EvRecv n (Some got)) (perform net ns (S nr) got r fin)
      | None => ([EvRecv n None], Err OSError)
      end
  | OpPrint l :: r => emit (EvPrint l latest) (perform net ns nr latest r fin)
  | OpClose :: r => emit EvClose (perform net ns nr latest r fin)
  end.

(** The bytes [send_frame] hands to [sendall]. *)
Definition frame_bytes (frame_type channel : Z) (payload : bytes) : result bytes :=
  rbind (pack [FB; FH; FI] [frame_type; channel; len payload])
        (fun head => Ok ((head ++ payload) ++ [xce])).

Definition start_ok_payload (user pass : bytes) : result bytes :=
  let resp := plain_response user user pass in
  rbind (pack [FI] [len resp]) (fun resp_len =>
  rbind (pack [FH; FH] [10; 11]) (fun ids =>
  Ok (ids ++ (([x00; x0c] ++ bytes_of_string "PLAIN") ++ resp_len ++ resp) ++ [x00]))).

Definition start_ok_frame (cfg : config) : result bytes :=
  rbind (encode (USER cfg)) (fun user =>
  rbind (encode (PASS cfg)) (fun pass =>
  rbind (start_ok_payload user pass) (frame_bytes 1 0))).

Definition open_payload (vhost : bytes) : result bytes :=
  rbind (pack [FH; FH; FB] [10; 40; len vhost]) (fun ids =>
  Ok ((ids ++ vhost) ++ [x00; x00])).

Definition open_frame (cfg : config) : result bytes :=
  rbind (encode (VHOST cfg)) (fun vhost =>
  rbind (open_payload vhost) (frame_bytes 1 0)).

Definition channel_open_frame : result bytes :=
  rbind (pack [FH; FH] [20; 10]) (frame_bytes 1 1).

Definition declare_payload (qname : bytes) : result bytes :=
  rbind (pack [FH; FH; FH] [50; 10; 1]) (fun ids =>
  rbind (pack [FB] [len qname]) (fun qlen =>
  rbind (pack [FB] [8]) (fun flags =>
  Ok ((((ids ++ [x00]) ++ qlen) ++ qname) ++ flags)))).

Definition declare_frame (cfg : config) : result bytes :=
  rbind (encode (QUEUE cfg)) (fun qname =>
  rbind (declare_payload qname) (frame_bytes 1 1)).

(** One round: write the frame if it could be built, then read. *)
Definition round (frame : result bytes) (rest : list op * result unit)
  : list op * result unit :=
  match frame with
  | Ok d => (OpSend d :: OpRecv 4096 :: fst rest, snd rest)
  | Err e => ([], Err e)
  end.

Definition plan (cfg : config) : list op * result unit :=
  let body :=
    round (start_ok_frame cfg)
      (round (open_frame cfg)
         (round channel_open_frame
            (round (declare_frame cfg)
               ([OpPrint (str_of_string "Response bytes:"); OpClose], Ok tt)))) in
  (OpConnect (HOST cfg) (PORT cfg) :: OpSend protocol_header :: OpRecv 4096 :: fst body,
   snd body).

Fixpoint op_writes (ops : list op) : list bytes :=
  match ops with
  | [] => []
  | OpSend d :: r => d :: op_writes r
  | _ :: r => op_writes r
  end.

Fixpoint op_steps (ops : list op) : list step :=
  match ops with
  | [] => []
  | OpSend d :: r => StSend (classify d) :: op_steps r
  | OpRecv _ :: r => StRecv :: op_steps r
  | _ :: r => op_steps r
  end.

(** The encoded string exceeds what a one-byte length prefix can say. *)
Definition too_long (s : pystr) : Prop :=
  exists b, encode s = Ok b /\ 255 < len b.

Definition fits_prefix (s : pystr) : Prop :=
  exists b, encode s = Ok b /\ len b <= 255.

(** The credentials encode, and Start-OK stays below the 32-bit frame size. *)
Definition credentials_fit (cfg : config) : Prop :=
  exists user pass,
    encode (USER cfg) = Ok user /\ encode (PASS cfg) = Ok pass /\
    2 * len user + len pass + 18 < 2 ^ 32.

(** Every field of the configuration encodes and fits its length prefix. *)
Definition well_sized (cfg : config) : Prop :=
  credentials_fit cfg /\ fits_prefix (VHOST cfg) /\ fits_prefix (QUEUE cfg).

(** ** The decoder of the specification *)

Record Frame : Type := MkFrame {
  frame_type : Z;
  frame_channel : Z;
  frame_payload : bytes
}.

Inductive decoded : Type :=
| DFrame (f : Frame)
| NeedMoreBytes
| MalformedFrame.

(** Modelled from the spec: the frame decoder.  The script never parses what
    it receives; section 4.1 of the specification describes
    [decode(bytes) -> Frame | NeedMoreBytes | MalformedFrame] over the envelope
    [type:1][channel:2][length:4][payload][0xCE]: fewer bytes than declared
    give [NeedMoreBytes], a terminator other than 0xCE gives
    [MalformedFrame]. *)
Definition decode (data : bytes) : decoded :=
  match data with
  | t :: c1 :: c2 :: l1 :: l2 :: l3 :: l4 :: rest =>
      let n := Z.to_nat (be_int [l1; l2; l3; l4]) in
      match nth_error rest n with
      | None => NeedMoreBytes
      | Some e =>
          if Byte.eqb e xce
          then DFrame {| frame_type := Z_of_byte t;
                         frame_channel := be_int [c1; c2];
                         frame_payload := firstn n rest |}
          else MalformedFrame
      end
  | _ => NeedMoreBytes
  end.

(** A server that closed its end after Start-OK: the first reply is there,
    every later [recv] returns the empty string, writes still go through. *)
Definition closing_broker : network :=
  {| connect_ok := true; sendall_ok := fun _ => true;
     recv_reply := fun i => match i with
                            | O => Some (bytes_of_string "start")
                            | _ => Some []
                            end |}.

(** The shipped configuration with a virtual host, or a queue name, of 256
    letters. *)
Definition long_name : pystr := repeat 97%N 256.

Definition long_vhost_config : config := {|
  HOST := HOST shipped_config; PORT := PORT shipped_config;
  USER := USER shipped_config; PASS := PASS shipped_config;
  VHOST := long_name; QUEUE := QUEUE shipped_config
|}.

Definition long_queue_config : config := {|
  HOST := HOST shipped_config; PORT := PORT shipped_config;
  USER := USER shipped_config; PASS := PASS shipped_config;
  VHOST := VHOST shipped_config; QUEUE := long_name
|}.

(** What [send_frame] writes when its arguments are in range: the envelope
    around [payload]. *)
Definition framed (frame_type channel : Z) (payload : bytes) : bytes :=
  be_bytes 1 frame_type ++ be_bytes 2 channel ++ be_bytes 4 (len payload)
    ++ payload ++ [xce].

(** A socket call that raised. *)
Definition failed (e : event) : bool :=
  match e with
  | EvConnect _ _ ok => negb ok
  | EvSend _ ok => negb ok
  | EvRecv _ None => true
  | _ => false
  end.

(** A broker that refuses the connection. *)
Definition refusing : network :=
  {| connect_ok := false; sendall_ok := fun _ => true;
     recv_reply := fun _ => Some [] |}.

(** A broker on which the [k]-th [sendall] raises. *)
Definition failing_write (k : nat) : network :=
  {| connect_ok := true; sendall_ok := fun i => negb (Nat.eqb i k);
     recv_reply := fun _ => Some [] |}.

(** The shipped configuration with a lone surrogate for a user name. *)
Definition surrogate_user_config : config := {|
  HOST := HOST shipped_config; PORT := PORT shipped_config;
  USER := [55296%N]; PASS := PASS shipped_config;
  VHOST := VHOST shipped_config; QUEUE := QUEUE shipped_config
|}.

(** A string of ASCII characters, and its bytes. *)
Definition is_ascii (s : pystr) : Prop := Forall (fun cp => (cp < 128)%N) s.

Definition ascii_bytes (s : pystr) : bytes :=
  map (fun cp => byte_of_Z (Z.of_N cp)) s.

(** [l1] is an initial segment of [l2]. *)
Definition is_prefix {A : Type} (l1 l2 : list A) : Prop :=
  exists rest, l1 ++ rest = l2.

(** * Properties *)

(** ** Bytes *)

Lemma Z_of_byte_range (b : byte) : 0 <= Z_of_byte b < 256.
Proof.
  unfold Z_of_byte. pose proof (Byte.to_N_bounded b). lia.
Qed.

Lemma Z_of_byte_of_Z (z : Z) : Z_of_byte (byte_of_Z z) = z mod 256.
Proof.
  unfold Z_of_byte, byte_of_Z.
  assert (Hr : 0 <= z mod 256 < 256) by (apply Z.mod_pos_bound; lia).
  destruct (Byte.of_N (Z.to_N (z mod 256))) as [b|] eqn:E.
  - apply Byte.to_of_N in E. rewrite E. lia.
  - apply Byte.of_N_None_iff in E. lia.
Qed.

Lemma byte_of_Z_of_byte (b : byte) : byte_of_Z (Z_of_byte b) = b.
Proof.
  unfold byte_of_Z.
  rewrite Z.mod_small by apply Z_of_byte_range.
  unfold Z_of_byte. rewrite N2Z.id, Byte.of_to_N. reflexivity.
Qed.

Lemma len_nil {A : Type} : len (@nil A) = 0.
Proof. reflexivity. Qed.

Lemma len_cons {A : Type} (x : A) (l : list A) : len (x :: l) = len l + 1.
Proof. unfold len. cbn [List.length]. lia. Qed.

Lemma len_app {A : Type} (l1 l2 : list A) : len (l1 ++ l2) = len l1 + len l2.
Proof. unfold len. rewrite length_app. lia. Qed.

Lemma len_nonneg {A : Type} (l : list A) : 0 <= len l.
Proof. unfold len. lia. Qed.

Lemma length_be_bytes (n : nat) (v : Z) : List.length (be_bytes n v) = n.
Proof. induction n; cbn [be_bytes List.length]; congruence. Qed.

Lemma be_int_be_bytes (n : nat) (v : Z) :
  0 <= v -> be_int (be_bytes n v) = v mod 256 ^ Z.of_nat n.
Proof.
  intros Hv. induction n as [|n IH].
  - cbn. now rewrite Z.mod_1_r.
  - cbn [be_bytes be_int]. rewrite IH, Z_of_byte_of_Z.
    unfold len. rewrite length_be_bytes.
    rewrite Z.shiftr_div_pow2 by lia.
    replace (2 ^ (8 * Z.of_nat n)) with (256 ^ Z.of_nat n)
      by (rewrite Z.pow_mul_r by lia; reflexivity).
    rewrite Nat2Z.inj_succ, Z.pow_succ_r by lia.
    assert (Hp : 0 < 256 ^ Z.of_nat n) by (apply Z.pow_pos_nonneg; lia).
    rewrite (Z.mul_comm 256).
    rewrite Z.rem_mul_r by lia. lia.
Qed.

Lemma be_int_be_bytes_small (n : nat) (v : Z) :
  0 <= v < 256 ^ Z.of_nat n -> be_int (be_bytes n v) = v.
Proof.
  intros Hv. rewrite be_int_be_bytes by lia. apply Z.mod_small. lia.
Qed.

(** ** struct.pack *)

Lemma in_range_spec (f : fmt) (v : Z) :
  in_range f v = true <-> 0 <= v < fmt_bound f.
Proof.
  unfold in_range. rewrite andb_true_iff, Z.leb_le, Z.ltb_lt. tauto.
Qed.

Lemma pack_one (f : fmt) (v : Z) :
  pack [f] [v] =
  if in_range f v then Ok (be_bytes (fmt_size f) v) else Err (StructRange f).
Proof.
  unfold pack. cbn. destruct (in_range f v); cbn; [|reflexivity].
  now rewrite app_nil_r.
Qed.

Lemma pack_frame_head (ft ch n : Z) :
  0 <= ft < 256 -> 0 <= ch < 65536 -> 0 <= n < 2 ^ 32 ->
  pack [FB; FH; FI] [ft; ch; n] =
  Ok (be_bytes 1 ft ++ be_bytes 2 ch ++ be_bytes 4 n).
Proof.
  intros Hft Hch Hn. unfold pack. cbn [List.length Nat.eqb pack_items].
  assert (E1 : in_range FB ft = true) by (apply in_range_spec; cbn; lia).
  assert (E2 : in_range FH ch = true) by (apply in_range_spec; cbn; lia).
  assert (E3 : in_range FI n = true)
    by (apply in_range_spec; change (fmt_bound FI) with (2 ^ 32); lia).
  rewrite E1, E2, E3. cbn [rbind fmt_size]. now rewrite app_nil_r.
Qed.

Lemma pack_length (fs : list fmt) (vs : list Z) (out : bytes) :
  pack fs vs = Ok out ->
  List.length out = fold_right (fun f n => (fmt_size f + n)%nat) 0%nat fs.
Proof.
  unfold pack. destruct (Nat.eqb _ _) eqn:E; [|discriminate].
  apply Nat.eqb_eq in E. revert vs out E.
  induction fs as [|f fs IH]; intros [|v vs] out E; try discriminate.
  - cbn. intros [= <-]. reflexivity.
  - cbn [pack_items fold_right]. destruct (in_range f v); [|discriminate].
    destruct (pack_items fs vs) as [rest|] eqn:Er; [|discriminate].
    cbn [rbind]. intros [= <-].
    rewrite length_app, length_be_bytes. f_equal.
    apply (IH vs); [now injection E | exact Er].
Qed.

(** The first byte of a packed 'B' is the value itself. *)
Lemma pack_B_head (v : Z) (fs : list fmt) (vs : list Z) (out : bytes) :
  pack (FB :: fs) (v :: vs) = Ok out ->
  exists rest, out = byte_of_Z v :: rest /\ 0 <= v < 256.
Proof.
  unfold pack. destruct (Nat.eqb _ _); [|discriminate].
  cbn [pack_items]. destruct (in_range FB v) eqn:E; [|discriminate].
  apply in_range_spec in E.
  destruct (pack_items fs vs) as [rest|]; [|discriminate].
  cbn [rbind fmt_size be_bytes]. intros [= <-].
  exists rest. split; [|exact E].
  change (8 * Z.of_nat 0) with 0. now rewrite Z.shiftr_0_r.
Qed.

(** ** The script performs its plan *)

Lemma fst_emit {A : Type} (e : event) (x : list event * result A) :
  fst (emit e x) = e :: fst x.
Proof. reflexivity. Qed.

Lemma snd_emit {A : Type} (e : event) (x : list event * result A) :
  snd (emit e x) = snd x.
Proof. reflexivity. Qed.

Ltac step_result :=
  match goal with
  | |- context [lift ?r] =>
      lazymatch r with
      | Ok _ => fail
      | Err _ => fail
      | _ => destruct r; [|reflexivity]; cbn [rbind lift bind]
      end
  end.

Lemma run_main_plan (net : network) (cfg : config) :
  execute net cfg = perform net 0 0 [] (fst (plan cfg)) (snd (plan cfg)).
Proof.
  unfold execute, main, plan, start_ok_frame, open_frame, declare_frame,
    channel_open_frame, start_ok_payload, open_payload, declare_payload,
    send_frame, frame_bytes, create_connection, sendall, recv, print, close.
  repeat step_result.
  reflexivity.
Qed.

(** ** Performing a plan *)

Lemma is_prefix_nil {A : Type} (l : list A) : is_prefix [] l.
Proof. now exists l. Qed.

Lemma is_prefix_refl {A : Type} (l : list A) : is_prefix l l.
Proof. exists []. apply app_nil_r. Qed.

Lemma is_prefix_cons {A : Type} (x : A) (l1 l2 : list A) :
  is_prefix l1 l2 -> is_prefix (x :: l1) (x :: l2).
Proof. intros [r <-]. now exists r. Qed.


Lemma is_prefix_length {A : Type} (l1 l2 : list A) :
  is_prefix l1 l2 -> (List.length l1 <= List.length l2)%nat.
Proof. intros [r <-]. rewrite length_app. lia. Qed.

Lemma is_prefix_In {A : Type} (x : A) (l1 l2 : list A) :
  is_prefix l1 l2 -> In x l1 -> In x l2.
Proof. intros [r <-] H. apply in_or_app. now left. Qed.

Section Perform.
Variable net : network.
Variable fin : result unit.

Lemma perform_steps_prefix (ops : list op) :
  forall ns nr latest,
    is_prefix (steps (fst (perform net ns nr latest ops fin))) (op_steps ops).
Proof.
  induction ops as [|o ops IH]; intros ns nr latest; cbn [perform].
  - apply is_prefix_nil.
  - destruct o; cbn [op_steps].
    + destruct (connect_ok net); cbn; [apply IH | apply is_prefix_nil].
    + destruct (sendall_ok net ns); cbn.
      * apply is_prefix_cons, IH.
      * apply is_prefix_cons, is_prefix_nil.
    + destruct (recv_reply net nr); cbn.
      * apply is_prefix_cons, IH.
      * apply is_prefix_cons, is_prefix_nil.
    + cbn. apply IH.
    + cbn. apply IH.
Qed.

Lemma perform_writes_prefix (ops : list op) :
  forall ns nr latest,
    is_prefix (writes (fst (perform net ns nr latest ops fin))) (op_writes ops).
Proof.
  induction ops as [|o ops IH]; intros ns nr latest; cbn [perform].
  - apply is_prefix_nil.
  - destruct o; cbn [op_writes].
    + destruct (connect_ok net); cbn; [apply IH | apply is_prefix_nil].
    + destruct (sendall_ok net ns); cbn.
      * apply is_prefix_cons, IH.
      * apply is_prefix_cons, is_prefix_nil.
    + destruct (recv_reply net nr); cbn; [apply IH | apply is_prefix_nil].
    + cbn. apply IH.
    + cbn. apply IH.
Qed.

(** A run that ends normally performed every call of its plan. *)
Lemma perform_ok (ops : list op) :
  forall ns nr latest,
    snd (perform net ns nr latest ops fin) = Ok tt ->
    fin = Ok tt /\
    steps (fst (perform net ns nr latest ops fin)) = op_steps ops /\
    writes (fst (perform net ns nr latest ops fin)) = op_writes ops.
Proof.
  induction ops as [|o ops IH]; intros ns nr latest; cbn [perform].
  - cbn. auto.
  - destruct o; cbn [op_steps op_writes].
    + destruct (connect_ok net); cbn; [apply IH | discriminate].
    + destruct (sendall_ok net ns); cbn; [|discriminate].
      intros H. destruct (IH _ _ _ H) as (? & -> & ->). auto.
    + destruct (recv_reply net nr); cbn; [|discriminate].
      intros H. destruct (IH _ _ _ H) as (? & -> & ->). auto.
    + cbn. apply IH.
    + cbn. apply IH.
Qed.

(** The only exception the network adds is [OSError]. *)
Lemma perform_err (ops : list op) (e : exn) :
  forall ns nr latest,
    snd (perform net ns nr latest ops fin) = Err e ->
    e = OSError \/ fin = Err e.
Proof.
  induction ops as [|o ops IH]; intros ns nr latest; cbn [perform].
  - cbn. auto.
  - destruct o.
    + destruct (connect_ok net); cbn; [apply IH | intros [= <-]; auto].
    + destruct (sendall_ok net ns); cbn; [apply IH | intros [= <-]; auto].
    + destruct (recv_reply net nr); cbn; [apply IH | intros [= <-]; auto].
    + cbn. apply IH.
    + cbn. apply IH.
Qed.

Lemma perform_fault_free (ops : list op) :
  fault_free net ->
  forall ns nr latest,
    snd (perform net ns nr latest ops fin) = fin /\
    steps (fst (perform net ns nr latest ops fin)) = op_steps ops /\
    writes (fst (perform net ns nr latest ops fin)) = op_writes ops.
Proof.
  intros (Hc & Hs & Hr).
  induction ops as [|o ops IH]; intros ns nr latest; cbn [perform].
  - cbn. auto.
  - destruct o; cbn [op_steps op_writes].
    + rewrite Hc. cbn. apply IH.
    + rewrite Hs. cbn.
      destruct (IH (S ns) nr latest) as (-> & -> & ->). auto.
    + destruct (recv_reply net nr) as [d|] eqn:E; [|now apply Hr in E].
      cbn. destruct (IH ns (S nr) (firstn (Z.to_nat bufsize) d)) as (-> & -> & ->).
      auto.
    + cbn. apply IH.
    + cbn. apply IH.
Qed.
End Perform.

(** What is written does not depend on what is read. *)
Lemma perform_same_faults (n1 n2 : network) (fin : result unit) (ops : list op) :
  same_faults n1 n2 ->
  forall ns nr l1 l2,
    writes (fst (perform n1 ns nr l1 ops fin)) =
    writes (fst (perform n2 ns nr l2 ops fin)) /\
    (snd (perform n1 ns nr l1 ops fin)) = (snd (perform n2 ns nr l2 ops fin)).
Proof.
  intros (Hc & Hs & Hr).
  induction ops as [|o ops IH]; intros ns nr l1 l2; cbn [perform].
  - cbn. auto.
  - destruct o.
    + rewrite <- Hc. destruct (connect_ok n1); cbn; [apply IH | auto].
    + rewrite <- Hs. destruct (sendall_ok n1 ns); cbn; [|auto].
      destruct (IH (S ns) nr l1 l2) as (-> & ->). auto.
    + destruct (recv_reply n1 nr) as [d1|] eqn:E1;
        destruct (recv_reply n2 nr) as [d2|] eqn:E2; cbn.
      * apply IH.
      * apply Hr in E2. congruence.
      * apply Hr in E1. congruence.
      * auto.
    + cbn. apply IH.
    + cbn. apply IH.
Qed.

(** ** The frames of the plan *)

Lemma frame_bytes_ok (ft ch : Z) (payload : bytes) :
  0 <= ft < 256 -> 0 <= ch < 65536 -> len payload < 2 ^ 32 ->
  frame_bytes ft ch payload =
  Ok (((be_bytes 1 ft ++ be_bytes 2 ch ++ be_bytes 4 (len payload)) ++ payload)
        ++ [xce]).
Proof.
  intros Hft Hch Hn. unfold frame_bytes.
  pose proof (len_nonneg payload).
  rewrite pack_frame_head by lia. reflexivity.
Qed.

Lemma send_frame_frame_bytes (sock : socket) (ft ch : Z) (payload : bytes) :
  send_frame sock ft ch payload =
  match frame_bytes ft ch payload with
  | Ok d => SendAll sock d (Ret tt)
  | Err e => Throw e
  end.
Proof.
  unfold send_frame, frame_bytes, sendall.
  destruct (pack _ _); reflexivity.
Qed.

Lemma pack_ids_start_ok : pack [FH; FH] [10; 11] = Ok [x00; x0a; x00; x0b].
Proof. reflexivity. Qed.

Lemma pack_ids_channel_open : pack [FH; FH] [20; 10] = Ok [x00; x14; x00; x0a].
Proof. reflexivity. Qed.

Lemma pack_ids_declare :
  pack [FH; FH; FH] [50; 10; 1] = Ok [x00; x32; x00; x0a; x00; x01].
Proof. reflexivity. Qed.

Lemma pack_flags : pack [FB] [8] = Ok [x08].
Proof. reflexivity. Qed.

Lemma pack_ids_open (n : Z) :
  pack [FH; FH; FB] [10; 40; n] =
  if in_range FB n then Ok [x00; x0a; x00; x28; byte_of_Z n]
  else Err (StructRange FB).
Proof.
  unfold pack. cbn [List.length Nat.eqb pack_items].
  change (in_range FH 10) with true. change (in_range FH 40) with true.
  cbn iota. destruct (in_range FB n); [|reflexivity].
  cbn [rbind fmt_size be_bytes app].
  change (8 * Z.of_nat 0) with 0. rewrite Z.shiftr_0_r. reflexivity.
Qed.

Lemma pack_B (n : Z) :
  pack [FB] [n] = if in_range FB n then Ok [byte_of_Z n] else Err (StructRange FB).
Proof.
  rewrite pack_one. destruct (in_range FB n); [|reflexivity].
  cbn [fmt_size be_bytes].
  change (8 * Z.of_nat 0) with 0. rewrite Z.shiftr_0_r. reflexivity.
Qed.

(** A method frame is classified by the four bytes that open its payload. *)
Lemma classify_frame (ch : Z) (c1 c2 m1 m2 : byte) (rest d : bytes) :
  frame_bytes 1 ch (c1 :: c2 :: m1 :: m2 :: rest) = Ok d ->
  classify d = KMethod (be_int [c1; c2]) (be_int [m1; m2]).
Proof.
  unfold frame_bytes.
  destruct (pack _ _) as [head|] eqn:E; [|discriminate].
  cbn [rbind]. intros [= <-].
  pose proof (pack_length _ _ _ E) as Hl. cbn in Hl.
  apply pack_B_head in E. destruct E as (tl & -> & _).
  destruct tl as [|h1 [|h2 [|h3 [|h4 [|h5 [|h6 [|]]]]]]]; try discriminate.
  reflexivity.
Qed.

Lemma start_ok_frame_kind (cfg : config) (d : bytes) :
  start_ok_frame cfg = Ok d -> classify d = KMethod 10 11.
Proof.
  unfold start_ok_frame, start_ok_payload.
  destruct (encode (USER cfg)); [|discriminate].
  destruct (encode (PASS cfg)); [|discriminate].
  cbn [rbind]. destruct (pack [FI] _); [|discriminate].
  rewrite pack_ids_start_ok. cbn [rbind app].
  intros H. apply classify_frame in H. exact H.
Qed.

Lemma open_frame_kind (cfg : config) (d : bytes) :
  open_frame cfg = Ok d -> classify d = KMethod 10 40.
Proof.
  unfold open_frame, open_payload.
  destruct (encode (VHOST cfg)); [|discriminate].
  cbn [rbind]. rewrite pack_ids_open.
  destruct (in_range FB _); [|discriminate].
  cbn [rbind app].
  intros H. apply classify_frame in H. exact H.
Qed.

Lemma channel_open_frame_value :
  channel_open_frame =
  Ok [x01; x00; x01; x00; x00; x00; x04; x00; x14; x00; x0a; xce].
Proof. reflexivity. Qed.

Lemma declare_frame_kind (cfg : config) (d : bytes) :
  declare_frame cfg = Ok d -> classify d = KMethod 50 10.
Proof.
  unfold declare_frame, declare_payload.
  destruct (encode (QUEUE cfg)); [|discriminate].
  cbn [rbind]. rewrite pack_ids_declare, pack_B, pack_flags.
  destruct (in_range FB _); [|discriminate].
  cbn [rbind app].
  intros H. apply classify_frame in H. exact H.
Qed.



(** ** When the frames can be built *)

Lemma encode_err (s : pystr) (e : exn) :
  encode s = Err e -> e = UnicodeEncodeError.
Proof.
  induction s as [|cp s IH]; cbn [encode]; [discriminate|].
  destruct (utf8_encode_cp cp); [|congruence].
  destruct (encode s); cbn [rbind]; [discriminate|].
  intros [= <-]. now apply IH.
Qed.

Lemma len_plain_response (a b c : bytes) :
  len (plain_response a b c) = len a + len b + len c + 2.
Proof.
  unfold plain_response. cbn [join].
  rewrite !len_app, !len_cons, len_nil. lia.
Qed.

Lemma frame_bytes_err (ft ch : Z) (payload : bytes) (e : exn) :
  0 <= ft < 256 -> 0 <= ch < 65536 ->
  frame_bytes ft ch payload = Err e -> e = StructRange FI.
Proof.
  intros Hft Hch. unfold frame_bytes, pack.
  cbn [List.length Nat.eqb pack_items].
  assert (E1 : in_range FB ft = true) by (apply in_range_spec; cbn; lia).
  assert (E2 : in_range FH ch = true) by (apply in_range_spec; cbn; lia).
  rewrite E1, E2.
  destruct (in_range FI (len payload)); cbn [rbind]; [discriminate|].
  now intros [= <-].
Qed.

Lemma in_range_true (f : fmt) (v : Z) :
  0 <= v < fmt_bound f -> in_range f v = true.
Proof. apply in_range_spec. Qed.

Lemma in_range_false (f : fmt) (v : Z) :
  fmt_bound f <= v -> in_range f v = false.
Proof.
  intros H. destruct (in_range f v) eqn:E; [|reflexivity].
  apply in_range_spec in E. lia.
Qed.

Lemma start_ok_frame_ok (cfg : config) :
  credentials_fit cfg -> exists d, start_ok_frame cfg = Ok d.
Proof.
  intros (user & pass & Eu & Ep & Hn).
  unfold start_ok_frame, start_ok_payload. rewrite Eu, Ep. cbn [rbind].
  pose proof (len_nonneg user). pose proof (len_nonneg pass).
  rewrite pack_one, in_range_true
    by (rewrite len_plain_response; change (fmt_bound FI) with (2 ^ 32); lia).
  rewrite pack_ids_start_ok. cbn [rbind fmt_size].
  rewrite frame_bytes_ok; [eauto | lia | lia |].
  rewrite !len_app, !len_cons, len_nil, len_plain_response.
  unfold len at 1 2. rewrite length_be_bytes.
  change (List.length (bytes_of_string "PLAIN")) with 5%nat. lia.
Qed.

Lemma start_ok_frame_err (cfg : config) (e : exn) :
  start_ok_frame cfg = Err e -> e = UnicodeEncodeError \/ e = StructRange FI.
Proof.
  unfold start_ok_frame, start_ok_payload.
  destruct (encode (USER cfg)) eqn:Eu;
    [|intros [= <-]; left; eapply encode_err; eauto].
  destruct (encode (PASS cfg)) eqn:Ep;
    [|intros [= <-]; left; eapply encode_err; eauto].
  cbn [rbind]. rewrite pack_one.
  destruct (in_range FI _); [|intros [= <-]; now right].
  rewrite pack_ids_start_ok. cbn [rbind].
  intros Hf. right. eapply frame_bytes_err; [| |exact Hf]; lia.
Qed.

Lemma open_frame_ok (cfg : config) :
  fits_prefix (VHOST cfg) -> exists d, open_frame cfg = Ok d.
Proof.
  intros (vhost & Ev & Hn).
  unfold open_frame, open_payload. rewrite Ev. cbn [rbind].
  pose proof (len_nonneg vhost).
  rewrite pack_ids_open, in_range_true by (cbn; lia). cbn [rbind].
  rewrite frame_bytes_ok; [eauto | lia | lia |].
  rewrite !len_app, !len_cons, len_nil. lia.
Qed.

Lemma open_frame_too_long (cfg : config) :
  too_long (VHOST cfg) -> open_frame cfg = Err (StructRange FB).
Proof.
  intros (vhost & Ev & Hn).
  unfold open_frame, open_payload. rewrite Ev. cbn [rbind].
  rewrite pack_ids_open, in_range_false by (cbn; lia). reflexivity.
Qed.

Lemma open_frame_err (cfg : config) (e : exn) :
  fits_prefix (VHOST cfg) -> open_frame cfg = Err e -> e = StructRange FI.
Proof.
  intros (vhost & Ev & Hn).
  unfold open_frame, open_payload. rewrite Ev. cbn [rbind].
  pose proof (len_nonneg vhost).
  rewrite pack_ids_open, in_range_true by (cbn; lia). cbn [rbind].
  intros Hf. eapply frame_bytes_err; [| |exact Hf]; lia.
Qed.

Lemma nth_error_two_from_end {A : Type} (l : list A) (a b : A) :
  nth_error (l ++ [a; b]) (List.length (l ++ [a; b]) - 2) = Some a.
Proof.
  rewrite length_app. cbn [List.length].
  replace (List.length l + 2 - 2)%nat with (List.length l + 0)%nat by lia.
  rewrite nth_error_app2 by lia.
  replace (List.length l + 0 - List.length l)%nat with 0%nat by lia.
  reflexivity.
Qed.

Lemma last_payload_byte_frame (head pre body : bytes) (b : byte) :
  last_payload_byte ((head ++ (pre ++ body) ++ [b]) ++ [xce]) = Some b.
Proof.
  unfold last_payload_byte.
  rewrite (app_assoc head). rewrite <- (app_assoc _ [b] [xce]).
  apply nth_error_two_from_end.
Qed.

Lemma declare_frame_flags (cfg : config) (d : bytes) :
  declare_frame cfg = Ok d -> last_payload_byte d = Some x08.
Proof.
  unfold declare_frame, declare_payload, frame_bytes.
  destruct (encode (QUEUE cfg)) as [qname|]; [|discriminate].
  cbn [rbind]. rewrite pack_ids_declare, pack_B, pack_flags.
  destruct (in_range FB _); [|discriminate].
  cbn [rbind]. destruct (pack [FB; FH; FI] _) as [head|]; [|discriminate].
  cbn [rbind]. intros [= <-].
  exact (last_payload_byte_frame head
           [x00; x32; x00; x0a; x00; x01; x00; byte_of_Z (len qname)] qname x08).
Qed.

Lemma declare_frame_ok (cfg : config) :
  fits_prefix (QUEUE cfg) -> exists d, declare_frame cfg = Ok d.
Proof.
  intros (qname & Eq & Hn).
  unfold declare_frame, declare_payload. rewrite Eq. cbn [rbind].
  pose proof (len_nonneg qname).
  rewrite pack_ids_declare, pack_B, pack_flags, in_range_true by (cbn; lia).
  cbn [rbind].
  rewrite frame_bytes_ok; [eauto | lia | lia |].
  rewrite !len_app, !len_cons, len_nil. lia.
Qed.

Lemma declare_frame_too_long (cfg : config) :
  too_long (QUEUE cfg) -> declare_frame cfg = Err (StructRange FB).
Proof.
  intros (qname & Eq & Hn).
  unfold declare_frame, declare_payload. rewrite Eq. cbn [rbind].
  rewrite pack_ids_declare, pack_B, pack_flags, in_range_false by (cbn; lia).
  reflexivity.
Qed.

Lemma declare_frame_err (cfg : config) (e : exn) :
  fits_prefix (QUEUE cfg) -> declare_frame cfg = Err e -> e = StructRange FI.
Proof.
  intros (qname & Eq & Hn).
  unfold declare_frame, declare_payload. rewrite Eq. cbn [rbind].
  pose proof (len_nonneg qname).
  rewrite pack_ids_declare, pack_B, pack_flags, in_range_true by (cbn; lia).
  cbn [rbind].
  intros Hf. eapply frame_bytes_err; [| |exact Hf]; lia.
Qed.

(** With fields that fit, the plan is the whole handshake. *)
Lemma plan_well_sized (cfg : config) :
  well_sized cfg ->
  exists d1 d2 d3 d4,
    start_ok_frame cfg = Ok d1 /\ open_frame cfg = Ok d2 /\
    channel_open_frame = Ok d3 /\ declare_frame cfg = Ok d4 /\
    plan cfg =
    ([OpConnect (HOST cfg) (PORT cfg);
      OpSend protocol_header; OpRecv 4096;
      OpSend d1; OpRecv 4096;
      OpSend d2; OpRecv 4096;
      OpSend d3; OpRecv 4096;
      OpSend d4; OpRecv 4096;
      OpPrint (str_of_string "Response bytes:"); OpClose], Ok tt).
Proof.
  intros (Hc & Hv & Hq).
  destruct (start_ok_frame_ok _ Hc) as [d1 E1].
  destruct (open_frame_ok _ Hv) as [d2 E2].
  destruct (declare_frame_ok _ Hq) as [d4 E4].
  exists d1, d2, [x01; x00; x01; x00; x00; x00; x04; x00; x14; x00; x0a; xce], d4.
  repeat split; auto.
  unfold plan. rewrite E1, E2, E4, channel_open_frame_value. reflexivity.
Qed.

(** * The frame encoder *)

(** Within the ranges of its three fields, [send_frame] makes one call of
    [sendall] with the envelope around the payload. *)
Lemma send_frame_in_range (sock : socket) (ft ch : Z) (payload : bytes) :
  0 <= ft < 256 -> 0 <= ch < 65536 -> len payload < 2 ^ 32 ->
  send_frame sock ft ch payload =
    SendAll sock
      (be_bytes 1 ft ++ be_bytes 2 ch ++ be_bytes 4 (len payload)
         ++ payload ++ [xce])
      (Ret tt) /\
  be_int (be_bytes 1 ft) = ft /\
  be_int (be_bytes 2 ch) = ch /\
  be_int (be_bytes 4 (len payload)) = len payload.
Proof.
  intros Hft Hch Hn. pose proof (len_nonneg payload) as Hp.
  split.
  - rewrite send_frame_frame_bytes, frame_bytes_ok by assumption.
    now rewrite <- !app_assoc.
  - repeat split; apply be_int_be_bytes_small.
    + change (256 ^ Z.of_nat 1) with 256. lia.
    + change (256 ^ Z.of_nat 2) with 65536. lia.
    + change (256 ^ Z.of_nat 4) with (2 ^ 32). lia.
Qed.

(** Outside them [struct.pack] raises, before anything is written. *)
Lemma send_frame_out_of_range (sock : socket) (ft ch : Z) (payload : bytes) :
  ~ (0 <= ft < 256 /\ 0 <= ch < 65536 /\ len payload < 2 ^ 32) ->
  exists code, send_frame sock ft ch payload = Throw (StructRange code).
Proof.
  intros Hn. unfold send_frame, pack. cbn [List.length Nat.eqb pack_items].
  destruct (in_range FB ft) eqn:E1; [|cbn; eauto].
  destruct (in_range FH ch) eqn:E2; [|cbn; eauto].
  destruct (in_range FI (len payload)) eqn:E3; [|cbn; eauto].
  exfalso. apply Hn. apply in_range_spec in E1, E2, E3.
  change (fmt_bound FB) with 256 in E1.
  change (fmt_bound FH) with 65536 in E2.
  change (fmt_bound FI) with (2 ^ 32) in E3. lia.
Qed.

(** A frame type of 256, which no call of the script passes, is refused. *)
Lemma send_frame_wide_type_raises :
  send_frame Sock 256 0 [] = Throw (StructRange FB) /\
  run (steady []) 0 0 (send_frame Sock 256 0 []) = ([], Err (StructRange FB)) /\
  ~ (forall ft ch payload,
        exists d, send_frame Sock ft ch payload = SendAll Sock d (Ret tt)).
Proof.
  split; [reflexivity|]. split; [reflexivity|].
  intros H. destruct (H 256 0 []) as [d Hd]. discriminate Hd.
Qed.

(** C1: for every frame type that is one byte (0..255), channel that is two
    bytes (0..65535) and payload whose length fits the four-byte field,
    [send_frame] does exactly one thing: it hands [sendall] the bytes
    [type:1][channel:2][length:4][payload][0xCE], the three integers
    big-endian, the length field being [len(payload)].  For any other
    argument it neither wraps nor truncates: [struct.pack] raises
    [struct.error] and nothing is written. *)
Theorem send_frame_wire (sock : socket) (ft ch : Z) (payload : bytes) :
  (0 <= ft < 256 -> 0 <= ch < 65536 -> len payload < 2 ^ 32 ->
   send_frame sock ft ch payload =
     SendAll sock
       (be_bytes 1 ft ++ be_bytes 2 ch ++ be_bytes 4 (len payload)
          ++ payload ++ [xce])
       (Ret tt) /\
   be_int (be_bytes 1 ft) = ft /\
   be_int (be_bytes 2 ch) = ch /\
   be_int (be_bytes 4 (len payload)) = len payload) /\
  (~ (0 <= ft < 256 /\ 0 <= ch < 65536 /\ len payload < 2 ^ 32) ->
   exists code,
     send_frame sock ft ch payload = Throw (StructRange code) /\
     forall net ns nr,
       run net ns nr (send_frame sock ft ch payload)
       = ([], Err (StructRange code))).
Proof.
  split.
  - apply send_frame_in_range.
  - intros Hn. destruct (send_frame_out_of_range sock ft ch payload Hn) as [code E].
    exists code. split; [exact E|]. intros net ns nr. now rewrite E.
Qed.

Lemma send_frame_wire_witness :
  send_frame Sock 1 1 [x00; x14; x00; x0a] =
    SendAll Sock [x01; x00; x01; x00; x00; x00; x04; x00; x14; x00; x0a; xce]
      (Ret tt) /\
  exists code, send_frame Sock 256 0 [] = Throw (StructRange code).
Proof.
  assert (H1 : 0 <= 1 < 256) by lia.
  assert (H2 : 0 <= 1 < 65536) by lia.
  assert (H3 : len [x00; x14; x00; x0a] < 2 ^ 32) by (cbn; lia).
  assert (H4 : ~ (0 <= 256 < 256 /\ 0 <= 0 < 65536 /\ len (@nil byte) < 2 ^ 32))
    by lia.
  split.
  - exact (proj1 (proj1 (send_frame_wire Sock 1 1 [x00; x14; x00; x0a]) H1 H2 H3)).
  - destruct (proj2 (send_frame_wire Sock 256 0 []) H4) as (code & E & _).
    exists code. exact E.
Defined.

(** * SASL PLAIN *)

(** C3: the response is [authzid + 0x00 + authcid + 0x00 + password]; for
    "u", "u", "p" it is the five bytes [u 00 u 00 p]. *)
Theorem plain_response_layout :
  (forall authzid authcid passwd : bytes,
      plain_response authzid authcid passwd =
      authzid ++ [x00] ++ authcid ++ [x00] ++ passwd) /\
  plain_response (bytes_of_string "u") (bytes_of_string "u") (bytes_of_string "p")
  = [x75; x00; x75; x00; x70] /\
  encode (str_of_string "u") = Ok [x75] /\
  encode (str_of_string "p") = Ok [x70].
Proof.
  repeat split; reflexivity.
Qed.

(** * The decoder of the specification against the encoder of the script *)

Lemma be_int_single (b : byte) : be_int [b] = Z_of_byte b.
Proof.
  cbn [be_int]. rewrite len_nil. change (256 ^ 0) with 1. lia.
Qed.

Lemma decode_layout (t : byte) (c l payload tail : bytes) (e : byte) :
  List.length c = 2%nat -> List.length l = 4%nat ->
  be_int l = len payload ->
  decode ([t] ++ c ++ l ++ payload ++ e :: tail) =
  if Byte.eqb e xce
  then DFrame {| frame_type := Z_of_byte t;
                 frame_channel := be_int c;
                 frame_payload := payload |}
  else MalformedFrame.
Proof.
  intros Hc Hl Hn.
  destruct c as [|c1 [|c2 [|]]]; try discriminate.
  destruct l as [|l1 [|l2 [|l3 [|l4 [|]]]]]; try discriminate.
  cbn [app decode]. rewrite Hn. unfold len. rewrite Nat2Z.id.
  rewrite nth_error_app2 by lia. rewrite Nat.sub_diag. cbn [nth_error].
  rewrite firstn_app, Nat.sub_diag, firstn_all. cbn [firstn].
  now rewrite app_nil_r.
Qed.

(** C6: what [send_frame] writes for a frame type in [0, 255], a channel in
    [0, 65535] and a payload shorter than 2^32 bytes decodes back to that
    type, channel and payload. *)
Theorem decode_send_frame (sock : socket) (ft ch : Z) (payload : bytes) :
  0 <= ft < 256 -> 0 <= ch < 65536 -> len payload < 2 ^ 32 ->
  exists d,
    send_frame sock ft ch payload = SendAll sock d (Ret tt) /\
    decode d = DFrame {| frame_type := ft;
                         frame_channel := ch;
                         frame_payload := payload |}.
Proof.
  intros Hft Hch Hn.
  destruct (send_frame_in_range sock ft ch payload Hft Hch Hn) as (Hs & Ht & Hc & Hl).
  eexists. split; [exact Hs|].
  pose proof (length_be_bytes 1 ft) as L1.
  destruct (be_bytes 1 ft) as [|t [|]]; try discriminate.
  rewrite decode_layout by (auto using length_be_bytes).
  change (Byte.eqb xce xce) with true. cbv iota.
  rewrite be_int_single in Ht. now rewrite Ht, Hc.
Qed.

Lemma decode_send_frame_witness :
  exists d,
    send_frame Sock 1 1 [x00; x14; x00; x0a] = SendAll Sock d (Ret tt) /\
    decode d = DFrame {| frame_type := 1;
                         frame_channel := 1;
                         frame_payload := [x00; x14; x00; x0a] |}.
Proof.
  apply (decode_send_frame Sock 1 1 [x00; x14; x00; x0a]); cbn; lia.
Defined.

Lemma decode_short (data : bytes) :
  len data < 7 -> decode data = NeedMoreBytes.
Proof.
  destruct data as [|? [|? [|? [|? [|? [|? [|? rest]]]]]]]; try reflexivity.
  rewrite !len_cons. pose proof (len_nonneg rest). lia.
Qed.

Lemma decode_incomplete (t : byte) (c l rest : bytes) :
  List.length c = 2%nat -> List.length l = 4%nat ->
  len rest <= be_int l ->
  decode ([t] ++ c ++ l ++ rest) = NeedMoreBytes.
Proof.
  intros Hc Hl Hn.
  destruct c as [|c1 [|c2 [|]]]; try discriminate.
  destruct l as [|l1 [|l2 [|l3 [|l4 [|]]]]]; try discriminate.
  cbn [app decode].
  assert (E : nth_error rest (Z.to_nat (be_int [l1; l2; l3; l4])) = None).
  { apply nth_error_None. unfold len in Hn. lia. }
  now rewrite E.
Qed.

Lemma decode_truncated (ft ch : Z) (payload : bytes) (k : nat) :
  0 <= ft < 256 -> 0 <= ch < 65536 -> len payload < 2 ^ 32 ->
  (k < 7 + List.length payload + 1)%nat ->
  decode (firstn k (be_bytes 1 ft ++ be_bytes 2 ch ++ be_bytes 4 (len payload)
                      ++ payload ++ [xce])) = NeedMoreBytes.
Proof.
  intros Hft Hch Hn Hk.
  assert (Hl : be_int (be_bytes 4 (len payload)) = len payload).
  { apply be_int_be_bytes_small. pose proof (len_nonneg payload).
    change (256 ^ Z.of_nat 4) with (2 ^ 32). lia. }
  pose proof (length_be_bytes 1 ft) as L1.
  pose proof (length_be_bytes 2 ch) as L2.
  pose proof (length_be_bytes 4 (len payload)) as L4.
  destruct (be_bytes 1 ft) as [|t [|]]; try discriminate.
  destruct (be_bytes 2 ch) as [|c1 [|c2 [|]]]; try discriminate.
  destruct (be_bytes 4 (len payload)) as [|l1 [|l2 [|l3 [|l4 [|]]]]];
    try discriminate.
  cbn [app].
  destruct k as [|[|[|[|[|[|[|k]]]]]]]; try reflexivity.
  cbn [firstn].
  apply (decode_incomplete t [c1; c2] [l1; l2; l3; l4]); try reflexivity.
  rewrite Hl. unfold len. rewrite length_firstn, length_app. cbn [List.length].
  lia.
Qed.

(** C7: the decoder is total with three outcomes; input that stops before
    the declared payload and its terminator are there gives [NeedMoreBytes],
    in particular every proper initial segment of a frame [send_frame] writes
    does (it is never taken for another frame); a byte other than 0xCE in the
    terminator position gives [MalformedFrame]. *)
Theorem decode_outcomes :
  (forall data,
      (exists f, decode data = DFrame f) \/
      decode data = NeedMoreBytes \/ decode data = MalformedFrame) /\
  (forall data, len data < 7 -> decode data = NeedMoreBytes) /\
  (forall t c l rest,
      List.length c = 2%nat -> List.length l = 4%nat ->
      len rest <= be_int l ->
      decode ([t] ++ c ++ l ++ rest) = NeedMoreBytes) /\
  (forall sock ft ch payload d k,
      0 <= ft < 256 -> 0 <= ch < 65536 -> len payload < 2 ^ 32 ->
      send_frame sock ft ch payload = SendAll sock d (Ret tt) ->
      (k < List.length d)%nat ->
      decode (firstn k d) = NeedMoreBytes) /\
  (forall t c l payload e tail,
      List.length c = 2%nat -> List.length l = 4%nat ->
      be_int l = len payload -> e <> xce ->
      decode ([t] ++ c ++ l ++ payload ++ e :: tail) = MalformedFrame).
Proof.
  split; [|split; [|split; [|split]]].
  - intros data. unfold decode.
    destruct data as [|? [|? [|? [|? [|? [|? [|? rest]]]]]]]; auto.
    destruct (nth_error rest _); auto.
    destruct (Byte.eqb _ _); eauto.
  - exact decode_short.
  - exact decode_incomplete.
  - intros sock ft ch payload d k Hft Hch Hn Hs Hk.
    destruct (send_frame_in_range sock ft ch payload Hft Hch Hn) as (Hw & _).
    assert (Hd : d = be_bytes 1 ft ++ be_bytes 2 ch ++ be_bytes 4 (len payload)
                       ++ payload ++ [xce]) by congruence.
    subst d.
    apply decode_truncated; auto.
    rewrite !length_app, !length_be_bytes in Hk. cbn [List.length] in Hk. lia.
  - intros t c l payload e tail Hc Hl Hn He.
    rewrite decode_layout by assumption.
    destruct (Byte.eqb e xce) eqn:E; [|reflexivity].
    apply Byte.byte_dec_bl in E. contradiction.
Qed.

Lemma decode_outcomes_witness :
  decode [x01; x00] = NeedMoreBytes /\
  decode [x01; x00; x01; x00; x00; x00; x04; x00; x14] = NeedMoreBytes /\
  decode (firstn 11 [x01; x00; x01; x00; x00; x00; x04; x00; x14; x00; x0a; xce])
    = NeedMoreBytes /\
  decode [x01; x00; x01; x00; x00; x00; x04; x00; x14; x00; x0a; xff]
    = MalformedFrame.
Proof.
  destruct decode_outcomes as (_ & Hshort & Hinc & Htrunc & Hbad).
  split; [|split; [|split]].
  - apply Hshort. cbn. lia.
  - apply (Hinc x01 [x00; x01] [x00; x00; x00; x04] [x00; x14]);
      try reflexivity. cbn. lia.
  - apply (Htrunc Sock 1 1 [x00; x14; x00; x0a]); try (cbn; lia).
    reflexivity.
  - apply (Hbad x01 [x00; x01] [x00; x00; x00; x04] [x00; x14; x00; x0a] xff []);
      try reflexivity. discriminate.
Defined.

Lemma perform_same_faults_connect (n1 n2 : network) (fin : result unit)
    (ops : list op) (h1 : pystr) (p1 : Z) (h2 : pystr) (p2 : Z) :
  same_faults n1 n2 ->
  writes (fst (perform n1 0 0 [] (OpConnect h1 p1 :: ops) fin)) =
  writes (fst (perform n2 0 0 [] (OpConnect h2 p2 :: ops) fin)).
Proof.
  intros Hsame. cbn [perform]. rewrite <- (proj1 Hsame).
  destruct (connect_ok n1); [|reflexivity].
  rewrite !fst_emit. cbn [writes].
  apply perform_same_faults, Hsame.
Qed.

(** * The run as a whole *)



Lemma is_prefix_nth_error {A : Type} (l1 l2 : list A) (n : nat) (x : A) :
  is_prefix l1 l2 -> nth_error l1 n = Some x -> nth_error l2 n = Some x.
Proof.
  intros [r <-] H. rewrite nth_error_app1; [exact H|].
  apply nth_error_Some. congruence.
Qed.

Lemma ending_cases (net : network) (cfg : config) :
  ending net cfg = Ok tt \/ exists e, ending net cfg = Err e.
Proof.
  destruct (ending net cfg) as [[]|e]; eauto.
Qed.

Lemma steady_fault_free (reply : bytes) : fault_free (steady reply).
Proof.
  split; [reflexivity|]. split; intros i; [reflexivity | discriminate].
Defined.

Lemma shipped_config_well_sized : well_sized shipped_config.
Proof.
  split; [|split].
  - exists (bytes_of_string "<user>"), (bytes_of_string "<pass>").
    split; [reflexivity|]. split; [reflexivity|]. cbn. lia.
  - exists (bytes_of_string "<vhost>"). split; [reflexivity|]. cbn. lia.
  - exists (bytes_of_string "<queue-name>"). split; [reflexivity|]. cbn. lia.
Defined.



(** C9: two runs whose brokers fail at the same calls, but may reply with any
    bytes whatever, and whose configurations agree on USER, PASS, VHOST and
    QUEUE, write the same byte strings in the same order. *)
Theorem writes_ignore_replies (cfg1 cfg2 : config) (net1 net2 : network) :
  USER cfg1 = USER cfg2 -> PASS cfg1 = PASS cfg2 ->
  VHOST cfg1 = VHOST cfg2 -> QUEUE cfg1 = QUEUE cfg2 ->
  same_faults net1 net2 ->
  writes (trace net1 cfg1) = writes (trace net2 cfg2).
Proof.
  destruct cfg1 as [h1 p1 u1 w1 v1 q1], cfg2 as [h2 p2 u2 w2 v2 q2].
  cbn [USER PASS VHOST QUEUE]. intros -> -> -> -> Hsame.
  unfold trace. rewrite !run_main_plan.
  unfold plan. cbn [fst snd HOST PORT].
  exact (perform_same_faults_connect net1 net2 _ _ h1 p1 h2 p2 Hsame).
Qed.

Lemma writes_ignore_replies_witness :
  writes (trace (steady [xff]) shipped_config) =
  writes (trace (steady [x00; x01]) shipped_config).
Proof.
  apply (writes_ignore_replies shipped_config shipped_config
           (steady [xff]) (steady [x00; x01])); try reflexivity.
  split; [reflexivity|]. split; intros i; [reflexivity|].
  split; discriminate.
Defined.

(** With fields that fit and a broker that answers, a run is these events,
    whatever the answers are. *)
Lemma run_well_sized (net : network) (cfg : config) :
  well_sized cfg -> fault_free net ->
  exists d1 d2 d3 d4 r0 r1 r2 r3 r4,
    classify d1 = KMethod 10 11 /\ classify d2 = KMethod 10 40 /\
    classify d3 = KMethod 20 10 /\ classify d4 = KMethod 50 10 /\
    recv_reply net 0 = Some r0 /\ recv_reply net 1 = Some r1 /\
    recv_reply net 2 = Some r2 /\ recv_reply net 3 = Some r3 /\
    recv_reply net 4 = Some r4 /\
    execute net cfg =
    ([EvConnect (HOST cfg) (PORT cfg) true;
      EvSend protocol_header true; EvRecv 4096 (Some (firstn 4096 r0));
      EvSend d1 true; EvRecv 4096 (Some (firstn 4096 r1));
      EvSend d2 true; EvRecv 4096 (Some (firstn 4096 r2));
      EvSend d3 true; EvRecv 4096 (Some (firstn 4096 r3));
      EvSend d4 true; EvRecv 4096 (Some (firstn 4096 r4));
      EvPrint (str_of_string "Response bytes:") (firstn 4096 r4);
      EvClose], Ok tt).
Proof.
  intros Hw (Hc & Hs & Hr).
  destruct (plan_well_sized cfg Hw) as (d1 & d2 & d3 & d4 & E1 & E2 & E3 & E4 & Hp).
  destruct (recv_reply net 0) as [r0|] eqn:R0; [|now apply Hr in R0].
  destruct (recv_reply net 1) as [r1|] eqn:R1; [|now apply Hr in R1].
  destruct (recv_reply net 2) as [r2|] eqn:R2; [|now apply Hr in R2].
  destruct (recv_reply net 3) as [r3|] eqn:R3; [|now apply Hr in R3].
  destruct (recv_reply net 4) as [r4|] eqn:R4; [|now apply Hr in R4].
  exists d1, d2, d3, d4, r0, r1, r2, r3, r4.
  split; [eapply start_ok_frame_kind; eauto|].
  split; [eapply open_frame_kind; eauto|].
  split; [rewrite channel_open_frame_value in E3; now injection E3 as <-|].
  split; [eapply declare_frame_kind; eauto|].
  do 5 (split; [reflexivity|]).
  rewrite run_main_plan, Hp. cbn [fst snd perform].
  rewrite Hc, !Hs, R0. cbn [emit fst snd].
  rewrite R1. cbn [emit fst snd].
  rewrite R2. cbn [emit fst snd].
  rewrite R3. cbn [emit fst snd].
  rewrite R4. reflexivity.
Qed.

(** A run that ends normally is these events and no others. *)
Lemma completed_run (net : network) (cfg : config) (d1 d2 d3 d4 : bytes) :
  plan cfg =
    ([OpConnect (HOST cfg) (PORT cfg);
      OpSend protocol_header; OpRecv 4096;
      OpSend d1; OpRecv 4096;
      OpSend d2; OpRecv 4096;
      OpSend d3; OpRecv 4096;
      OpSend d4; OpRecv 4096;
      OpPrint (str_of_string "Response bytes:"); OpClose], Ok tt) ->
  ending net cfg = Ok tt ->
  exists r0 r1 r2 r3 r4,
    recv_reply net 0 = Some r0 /\ recv_reply net 1 = Some r1 /\
    recv_reply net 2 = Some r2 /\ recv_reply net 3 = Some r3 /\
    recv_reply net 4 = Some r4 /\
    execute net cfg =
      ([EvConnect (HOST cfg) (PORT cfg) true;
          EvSend protocol_header true; EvRecv 4096 (Some (firstn 4096 r0));
          EvSend d1 true; EvRecv 4096 (Some (firstn 4096 r1));
          EvSend d2 true; EvRecv 4096 (Some (firstn 4096 r2));
          EvSend d3 true; EvRecv 4096 (Some (firstn 4096 r3));
          EvSend d4 true; EvRecv 4096 (Some (firstn 4096 r4));
          EvPrint (str_of_string "Response bytes:") (firstn 4096 r4);
          EvClose], Ok tt).
Proof.
  intros Hp. unfold ending. rewrite run_main_plan, Hp. cbn [fst snd perform].
  destruct (connect_ok net); cbn [emit fst snd]; [|discriminate].
  destruct (sendall_ok net 0); cbn [emit fst snd]; [|discriminate].
  destruct (recv_reply net 0) as [r0|]; cbn [emit fst snd]; [|discriminate].
  destruct (sendall_ok net 1); cbn [emit fst snd]; [|discriminate].
  destruct (recv_reply net 1) as [r1|]; cbn [emit fst snd]; [|discriminate].
  destruct (sendall_ok net 2); cbn [emit fst snd]; [|discriminate].
  destruct (recv_reply net 2) as [r2|]; cbn [emit fst snd]; [|discriminate].
  destruct (sendall_ok net 3); cbn [emit fst snd]; [|discriminate].
  destruct (recv_reply net 3) as [r3|]; cbn [emit fst snd]; [|discriminate].
  destruct (sendall_ok net 4); cbn [emit fst snd]; [|discriminate].
  destruct (recv_reply net 4) as [r4|]; cbn [emit fst snd]; [|discriminate].
  intros _. exists r0, r1, r2, r3, r4. repeat split; reflexivity.
Qed.

(** A run that ends in [OSError], under a plan that raises nothing itself,
    ends at the socket call that raised. *)
Lemma perform_oserror_last (net : network) (ops : list op) :
  forall ns nr latest,
    snd (perform net ns nr latest ops (Ok tt)) = Err OSError ->
    exists pre e,
      fst (perform net ns nr latest ops (Ok tt)) = pre ++ [e] /\
      failed e = true.
Proof.
  induction ops as [|o ops IH]; intros ns nr latest; cbn [perform].
  - cbn. discriminate.
  - destruct o.
    + destruct (connect_ok net); cbn [emit fst snd].
      * intros H. destruct (IH _ _ _ H) as (pre & e & -> & He).
        now exists (EvConnect host port true :: pre), e.
      * intros _. now exists [], (EvConnect host port false).
    + destruct (sendall_ok net ns); cbn [emit fst snd].
      * intros H. destruct (IH _ _ _ H) as (pre & e & -> & He).
        now exists (EvSend data true :: pre), e.
      * intros _. now exists [], (EvSend data false).
    + destruct (recv_reply net nr) as [d|]; cbn [emit fst snd].
      * intros H. destruct (IH _ _ _ H) as (pre & e & -> & He).
        now exists (EvRecv bufsize (Some (firstn (Z.to_nat bufsize) d)) :: pre), e.
      * intros _. now exists [], (EvRecv bufsize None).
    + cbn [emit fst snd].
      intros H. destruct (IH _ _ _ H) as (pre & e & -> & He).
      now exists (EvPrint label latest :: pre), e.
    + cbn [emit fst snd].
      intros H. destruct (IH _ _ _ H) as (pre & e & -> & He).
      now exists (EvClose :: pre), e.
Qed.

(** * Replies are not looked at *)

(** C4, as stated, does not hold: against a broker that answers every read
    with the single byte 0xFF, which is no frame at all, the script still
    makes all five writes. *)
Lemma replies_not_validated :
  classify [xff] = KOther /\
  List.length (writes (trace (steady [xff]) shipped_config)) = 5%nat /\
  ~ validates_replies.
Proof.
  split; [reflexivity|]. split; [reflexivity|].
  intros H.
  assert (Hk : classify [xff] <> expected_reply 0) by discriminate.
  pose proof (H (steady [xff]) shipped_config 0%nat [xff] eq_refl Hk) as Hl.
  vm_compute in Hl. lia.
Qed.

(** C4, amended: the script never parses a reply.  When the fields encode
    and fit their length prefixes, the four frames it writes after the
    header are fixed by the configuration; and against any broker on which
    no socket call raises, whatever the replies are, the run is exactly:
    connect, five rounds of one write and one read of at most 4096 bytes
    (header, start-ok, connection.open, channel.open, queue.declare), one
    print of the last reply, close; it ends normally.  Nothing that is read
    goes anywhere but into that one print. *)
Theorem advances_on_any_reply (cfg : config) :
  well_sized cfg ->
  exists d1 d2 d3 d4,
    classify d1 = KMethod 10 11 /\ classify d2 = KMethod 10 40 /\
    classify d3 = KMethod 20 10 /\ classify d4 = KMethod 50 10 /\
    forall net,
      fault_free net ->
      exists r0 r1 r2 r3 r4,
        recv_reply net 0 = Some r0 /\ recv_reply net 1 = Some r1 /\
        recv_reply net 2 = Some r2 /\ recv_reply net 3 = Some r3 /\
        recv_reply net 4 = Some r4 /\
        execute net cfg =
          ([EvConnect (HOST cfg) (PORT cfg) true;
          EvSend protocol_header true; EvRecv 4096 (Some (firstn 4096 r0));
          EvSend d1 true; EvRecv 4096 (Some (firstn 4096 r1));
          EvSend d2 true; EvRecv 4096 (Some (firstn 4096 r2));
          EvSend d3 true; EvRecv 4096 (Some (firstn 4096 r3));
          EvSend d4 true; EvRecv 4096 (Some (firstn 4096 r4));
          EvPrint (str_of_string "Response bytes:") (firstn 4096 r4);
          EvClose], Ok tt).
Proof.
  intros Hw.
  destruct (plan_well_sized cfg Hw) as (d1 & d2 & d3 & d4 & E1 & E2 & E3 & E4 & Hp).
  exists d1, d2, d3, d4.
  split; [eapply start_ok_frame_kind; eauto|].
  split; [eapply open_frame_kind; eauto|].
  split; [rewrite channel_open_frame_value in E3; now injection E3 as <-|].
  split; [eapply declare_frame_kind; eauto|].
  intros net Hf. apply completed_run; [exact Hp|].
  unfold ending. rewrite run_main_plan, Hp. cbn [fst snd].
  apply perform_fault_free, Hf.
Qed.

Lemma advances_on_any_reply_witness :
  exists d1 d2 d3 d4 r0 r1 r2 r3 r4,
    execute (steady [xff]) shipped_config =
      ([EvConnect (HOST shipped_config) (PORT shipped_config) true;
        EvSend protocol_header true; EvRecv 4096 (Some (firstn 4096 r0));
        EvSend d1 true; EvRecv 4096 (Some (firstn 4096 r1));
        EvSend d2 true; EvRecv 4096 (Some (firstn 4096 r2));
        EvSend d3 true; EvRecv 4096 (Some (firstn 4096 r3));
        EvSend d4 true; EvRecv 4096 (Some (firstn 4096 r4));
        EvPrint (str_of_string "Response bytes:") (firstn 4096 r4);
        EvClose], Ok tt).
Proof.
  destruct (advances_on_any_reply shipped_config shipped_config_well_sized)
    as (d1 & d2 & d3 & d4 & _ & _ & _ & _ & Hrun).
  destruct (Hrun (steady [xff]) (steady_fault_free [xff]))
    as (r0 & r1 & r2 & r3 & r4 & _ & _ & _ & _ & _ & H).
  exists d1, d2, d3, d4, r0, r1, r2, r3, r4. exact H.
Defined.

(** * The server closing after Start-OK *)

(** C8, as stated, does not hold: when every read after the first returns
    the empty string (the peer has closed), the script reports nothing; it
    writes connection.open, channel.open and queue.declare and ends
    normally. *)
Lemma close_not_reported :
  recv_reply closing_broker 1 = Some [] /\
  ending closing_broker shipped_config = Ok tt /\
  steps (trace closing_broker shipped_config) = handshake_order /\
  ~ fails_when_closed_after_start_ok.
Proof.
  split; [reflexivity|]. split; [reflexivity|]. split; [reflexivity|].
  intros H. destruct (H closing_broker shipped_config eq_refl) as [Hend _].
  apply Hend. reflexivity.
Qed.

(** C8, amended: let the fields encode and fit their length prefixes, and
    let the read after Start-OK return the empty string.  Then the next
    thing the script does is to write connection.open.  After that the run
    either ends normally, having made all five writes in order, printed the
    last reply and closed the socket, or ends in an uncaught [OSError] at
    the socket call that raised.  There is no AuthFailed result and no
    connection state. *)
Theorem end_of_stream_ignored (net : network) (cfg : config) :
  well_sized cfg ->
  connect_ok net = true -> sendall_ok net 0 = true -> sendall_ok net 1 = true ->
  recv_reply net 0 <> None -> recv_reply net 1 = Some [] ->
  (exists d ok,
      nth_error (trace net cfg) 4 = Some (EvRecv 4096 (Some [])) /\
      nth_error (trace net cfg) 5 = Some (EvSend d ok) /\
      classify d = KMethod 10 40) /\
  ((ending net cfg = Ok tt /\
    steps (trace net cfg) = handshake_order /\
    (exists r, recv_reply net 4 = Some r /\
               In (EvPrint (str_of_string "Response bytes:") (firstn 4096 r))
                  (trace net cfg)) /\
    In EvClose (trace net cfg)) \/
   (ending net cfg = Err OSError /\
    exists pre e, trace net cfg = pre ++ [e] /\ failed e = true)).
Proof.
  intros Hw Hc Hs0 Hs1 Hr0 Hr1.
  destruct (plan_well_sized cfg Hw) as (d1 & d2 & d3 & d4 & E1 & E2 & E3 & E4 & Hp).
  split.
  - exists d2, (sendall_ok net 2).
    split; [|split; [|eapply open_frame_kind; eauto]].
    + unfold trace. rewrite run_main_plan, Hp. cbn [fst snd perform].
      rewrite Hc, Hs0, Hs1, Hr1.
      destruct (recv_reply net 0) as [r0|]; [|contradiction].
      reflexivity.
    + unfold trace. rewrite run_main_plan, Hp. cbn [fst snd perform].
      rewrite Hc, Hs0, Hs1, Hr1.
      destruct (recv_reply net 0) as [r0|]; [|contradiction].
      cbn [emit fst snd firstn nth_error].
      destruct (sendall_ok net 2); reflexivity.
  - destruct (ending_cases net cfg) as [H|[e H]].
    + left. split; [exact H|].
      destruct (completed_run net cfg d1 d2 d3 d4 Hp H)
        as (r0 & r1 & r2 & r3 & r4 & _ & _ & _ & _ & R4 & Hrun).
      unfold trace. rewrite Hrun. cbn [fst].
      split; [|split].
      * cbn [steps].
        rewrite (start_ok_frame_kind _ _ E1), (open_frame_kind _ _ E2),
          (declare_frame_kind _ _ E4).
        rewrite channel_open_frame_value in E3. injection E3 as <-.
        reflexivity.
      * exists r4. split; [exact R4|]. cbn [In]. tauto.
      * cbn [In]. tauto.
    + right.
      assert (He : e = OSError).
      { unfold ending in H. rewrite run_main_plan, Hp in H. cbn [fst snd] in H.
        apply perform_err in H. destruct H as [H|H]; [exact H | discriminate H]. }
      subst e. split; [exact H|].
      unfold ending in H. unfold trace.
      rewrite run_main_plan, Hp in *. cbn [fst snd] in *.
      now apply perform_oserror_last.
Qed.

Lemma end_of_stream_ignored_witness :
  ((exists d ok,
       nth_error (trace closing_broker shipped_config) 4
         = Some (EvRecv 4096 (Some [])) /\
       nth_error (trace closing_broker shipped_config) 5 = Some (EvSend d ok) /\
       classify d = KMethod 10 40) /\
   ending closing_broker shipped_config = Ok tt) /\
  ending (failing_write 3) shipped_config = Err OSError.
Proof.
  split.
  - destruct (end_of_stream_ignored closing_broker shipped_config
                shipped_config_well_sized eq_refl eq_refl eq_refl
                ltac:(discriminate) eq_refl) as (Hnext & _).
    split; [exact Hnext | reflexivity].
  - destruct (end_of_stream_ignored (failing_write 3) shipped_config
                shipped_config_well_sized eq_refl eq_refl eq_refl
                ltac:(discriminate) eq_refl) as (_ & [(H & _) | (H & _)]).
    + discriminate H.
    + exact H.
Defined.

(** * The flags byte of queue.declare *)

Lemma plan_fifth_write (cfg : config) (d : bytes) :
  nth_error (op_writes (fst (plan cfg))) 4 = Some d -> declare_frame cfg = Ok d.
Proof.
  unfold plan. cbn [fst op_writes nth_error].
  destruct (start_ok_frame cfg); [|discriminate].
  cbn [round fst op_writes nth_error].
  destruct (open_frame cfg); [|discriminate].
  cbn [round fst op_writes nth_error].
  rewrite channel_open_frame_value.
  cbn [round fst op_writes nth_error].
  destruct (declare_frame cfg); [|discriminate].
  cbn [round fst op_writes nth_error]. congruence.
Qed.

(** C5: the fifth write of any run is a queue.declare (50,10) frame whose
    payload ends in the byte 0x08, the one the script comments as "passive
    flag".  With the five flags in the order passive, durable, exclusive,
    auto-delete, no-wait, AMQP 0-9-1 packing them from the low bit, 0x08 has
    the passive bit clear and exactly the auto-delete bit set; read from the
    high bit instead, passive is clear as well. *)
Theorem declare_flags_byte :
  (forall net cfg d,
      nth_error (writes (trace net cfg)) 4 = Some d ->
      classify d = KMethod 50 10 /\ last_payload_byte d = Some x08) /\
  flag_set x08 Passive = false /\
  (forall f, flag_set x08 f = true <-> f = AutoDelete) /\
  flag_set_msb x08 Passive = false /\
  nth_error (writes (trace (steady []) shipped_config)) 4 =
    Some [x01; x00; x01; x00; x00; x00; x15;
          x00; x32; x00; x0a; x00; x01; x00; x0c;
          x3c; x71; x75; x65; x75; x65; x2d; x6e; x61; x6d; x65; x3e;
          x08; xce].
Proof.
  split; [|split; [|split; [|split]]]; try reflexivity.
  - intros net cfg d H.
    assert (Hp : is_prefix (writes (trace net cfg)) (op_writes (fst (plan cfg)))).
    { unfold trace. rewrite run_main_plan. apply perform_writes_prefix. }
    apply (is_prefix_nth_error _ _ _ _ Hp), plan_fifth_write in H.
    split; [eapply declare_frame_kind | eapply declare_frame_flags]; eauto.
  - intros f. split.
    + destruct f; try discriminate. reflexivity.
    + intros ->. reflexivity.
Qed.

Lemma declare_flags_byte_witness :
  exists d,
    nth_error (writes (trace (steady []) shipped_config)) 4 = Some d /\
    classify d = KMethod 50 10 /\ last_payload_byte d = Some x08.
Proof.
  eexists. split; [reflexivity|].
  apply (proj1 declare_flags_byte (steady []) shipped_config). reflexivity.
Defined.

(** * One-byte length prefixes *)

Lemma plan_long_vhost (cfg : config) :
  too_long (VHOST cfg) ->
  is_prefix (op_steps (fst (plan cfg)))
            [StSend KHeader; StRecv; StSend (KMethod 10 11); StRecv] /\
  (exists e, snd (plan cfg) = Err e) /\
  (credentials_fit cfg -> snd (plan cfg) = Err (StructRange FB)).
Proof.
  intros Hv. apply open_frame_too_long in Hv.
  unfold plan. cbn [fst snd op_steps].
  change (classify protocol_header) with KHeader.
  destruct (start_ok_frame cfg) as [d1|e1] eqn:E1.
  - cbn [round fst snd op_steps]. rewrite Hv, (start_ok_frame_kind _ _ E1).
    cbn [round fst snd op_steps].
    split; [apply is_prefix_refl|]. split; eauto.
  - cbn [round fst snd op_steps].
    split; [do 2 apply is_prefix_cons; apply is_prefix_nil|].
    split; [eauto|].
    intros Hc. apply start_ok_frame_ok in Hc. destruct Hc as [d Hd]. congruence.
Qed.

Lemma plan_long_queue (cfg : config) :
  too_long (QUEUE cfg) ->
  is_prefix (op_steps (fst (plan cfg)))
            [StSend KHeader; StRecv; StSend (KMethod 10 11); StRecv;
             StSend (KMethod 10 40); StRecv; StSend (KMethod 20 10); StRecv] /\
  (exists e, snd (plan cfg) = Err e) /\
  (credentials_fit cfg -> fits_prefix (VHOST cfg) ->
   snd (plan cfg) = Err (StructRange FB)).
Proof.
  intros Hq. apply declare_frame_too_long in Hq.
  unfold plan. cbn [fst snd op_steps].
  change (classify protocol_header) with KHeader.
  destruct (start_ok_frame cfg) as [d1|e1] eqn:E1.
  2:{ cbn [round fst snd op_steps].
      split; [do 2 apply is_prefix_cons; apply is_prefix_nil|].
      split; [eauto|].
      intros Hc _. apply start_ok_frame_ok in Hc. destruct Hc as [d Hd].
      congruence. }
  cbn [round fst snd op_steps]. rewrite (start_ok_frame_kind _ _ E1).
  destruct (open_frame cfg) as [d2|e2] eqn:E2.
  2:{ cbn [round fst snd op_steps].
      split; [do 4 apply is_prefix_cons; apply is_prefix_nil|].
      split; [eauto|].
      intros _ Hv. apply open_frame_ok in Hv. destruct Hv as [d Hd].
      congruence. }
  cbn [round fst snd op_steps]. rewrite (open_frame_kind _ _ E2).
  rewrite channel_open_frame_value, Hq.
  cbn [round fst snd op_steps].
  change (classify [x01; x00; x01; x00; x00; x00; x04; x00; x14; x00; x0a; xce])
    with (KMethod 20 10).
  split; [apply is_prefix_refl|]. split; eauto.
Qed.

Lemma plan_no_prefix_error (cfg : config) :
  fits_prefix (VHOST cfg) -> fits_prefix (QUEUE cfg) ->
  snd (plan cfg) <> Err (StructRange FB).
Proof.
  intros Hv Hq. unfold plan. cbn [snd].
  destruct (start_ok_frame cfg) as [d1|e1] eqn:E1.
  2:{ cbn [round snd]. apply start_ok_frame_err in E1.
      destruct E1 as [-> | ->]; discriminate. }
  cbn [round snd].
  destruct (open_frame cfg) as [d2|e2] eqn:E2.
  2:{ cbn [round snd]. apply (open_frame_err _ _ Hv) in E2. subst e2.
      discriminate. }
  cbn [round snd]. rewrite channel_open_frame_value. cbn [round snd].
  destruct (declare_frame cfg) as [d4|e4] eqn:E4.
  2:{ cbn [round snd]. apply (declare_frame_err _ _ Hq) in E4. subst e4.
      discriminate. }
  cbn [round snd]. discriminate.
Qed.

(** C10: a VHOST whose encoding is longer than 255 bytes makes every run end
    in an exception without connection.open ever being written, and that
    exception is the [struct.error] of format 'B' when the run gets that far;
    the same holds for QUEUE and queue.declare; with both at most 255 bytes
    no run ends in that [struct.error]. *)
Theorem length_prefix_guard (net : network) (cfg : config) :
  (too_long (VHOST cfg) ->
     (exists e, ending net cfg = Err e) /\
     ~ In (StSend (KMethod 10 40)) (steps (trace net cfg)) /\
     (credentials_fit cfg -> fault_free net ->
      ending net cfg = Err (StructRange FB))) /\
  (too_long (QUEUE cfg) ->
     (exists e, ending net cfg = Err e) /\
     ~ In (StSend (KMethod 50 10)) (steps (trace net cfg)) /\
     (credentials_fit cfg -> fits_prefix (VHOST cfg) -> fault_free net ->
      ending net cfg = Err (StructRange FB))) /\
  (fits_prefix (VHOST cfg) -> fits_prefix (QUEUE cfg) ->
     ending net cfg <> Err (StructRange FB)).
Proof.
  assert (Hsteps : is_prefix (steps (trace net cfg)) (op_steps (fst (plan cfg)))).
  { unfold trace. rewrite run_main_plan. apply perform_steps_prefix. }
  assert (Hend : forall e, snd (plan cfg) = Err e -> exists e', ending net cfg = Err e').
  { intros e He. destruct (ending_cases net cfg) as [H|H]; [|exact H].
    unfold ending in H. rewrite run_main_plan in H.
    apply perform_ok in H. destruct H as (H & _). congruence. }
  assert (Hff : fault_free net -> ending net cfg = snd (plan cfg)).
  { intros Hf. unfold ending. rewrite run_main_plan.
    apply perform_fault_free, Hf. }
  split; [|split].
  - intros Hv. destruct (plan_long_vhost cfg Hv) as (Hp & [e He] & Hb).
    split; [eauto|]. split.
    + intros H. apply (is_prefix_In _ _ _ Hsteps), (is_prefix_In _ _ _ Hp) in H.
      cbn in H. intuition discriminate.
    + intros Hc Hf. rewrite (Hff Hf). auto.
  - intros Hq. destruct (plan_long_queue cfg Hq) as (Hp & [e He] & Hb).
    split; [eauto|]. split.
    + intros H. apply (is_prefix_In _ _ _ Hsteps), (is_prefix_In _ _ _ Hp) in H.
      cbn in H. intuition discriminate.
    + intros Hc Hv Hf. rewrite (Hff Hf). auto.
  - intros Hv Hq H.
    unfold ending in H. rewrite run_main_plan in H.
    apply perform_err in H. destruct H as [H|H]; [discriminate H|].
    now apply (plan_no_prefix_error cfg Hv Hq).
Qed.

Lemma long_name_too_long : too_long long_name.
Proof.
  exists (repeat x61 256). split; [vm_compute; reflexivity|].
  vm_compute. reflexivity.
Defined.

Lemma length_prefix_guard_witness :
  ending (steady []) long_vhost_config = Err (StructRange FB) /\
  ending (steady []) long_queue_config = Err (StructRange FB) /\
  ending (steady []) shipped_config <> Err (StructRange FB).
Proof.
  destruct shipped_config_well_sized as (Hc & Hv & Hq).
  split; [|split].
  - apply (proj1 (length_prefix_guard (steady []) long_vhost_config)).
    + exact long_name_too_long.
    + exact Hc.
    + apply steady_fault_free.
  - apply (proj1 (proj2 (length_prefix_guard (steady []) long_queue_config))).
    + exact long_name_too_long.
    + exact Hc.
    + exact Hv.
    + apply steady_fault_free.
  - apply (proj2 (proj2 (length_prefix_guard (steady []) shipped_config)));
      assumption.
Defined.

(** * Further properties of the script *)

(** ** What each write is *)

Lemma rbind_ok_inv {A B : Type} (r : result A) (k : A -> result B) (b : B) :
  rbind r k = Ok b -> exists a, r = Ok a /\ k a = Ok b.
Proof. destruct r as [a|e]; cbn [rbind]; [eauto | discriminate]. Qed.

Lemma frame_bytes_inv (ft ch : Z) (payload d : bytes) :
  frame_bytes ft ch payload = Ok d ->
  d = framed ft ch payload /\
  0 <= ft < 256 /\ 0 <= ch < 65536 /\ len payload < 2 ^ 32.
Proof.
  intros H.
  assert (R : 0 <= ft < 256 /\ 0 <= ch < 65536 /\ len payload < 2 ^ 32).
  { revert H. unfold frame_bytes, pack. cbn [List.length Nat.eqb pack_items].
    destruct (in_range FB ft) eqn:E1; [|discriminate].
    destruct (in_range FH ch) eqn:E2; [|discriminate].
    destruct (in_range FI (len payload)) eqn:E3; [|discriminate].
    intros _. apply in_range_spec in E1, E2, E3.
    change (fmt_bound FB) with 256 in E1.
    change (fmt_bound FH) with 65536 in E2.
    change (fmt_bound FI) with (2 ^ 32) in E3. lia. }
  split; [|exact R]. destruct R as (R1 & R2 & R3).
  rewrite frame_bytes_ok in H by assumption.
  unfold framed. rewrite <- !app_assoc in H. congruence.
Qed.

Lemma trace_write_in_plan (net : network) (cfg : config) (i : nat) (d : bytes) :
  nth_error (writes (trace net cfg)) i = Some d ->
  nth_error (op_writes (fst (plan cfg))) i = Some d.
Proof.
  apply is_prefix_nth_error.
  unfold trace. rewrite run_main_plan. apply perform_writes_prefix.
Qed.

Lemma plan_second_write (cfg : config) (d : bytes) :
  nth_error (op_writes (fst (plan cfg))) 1 = Some d -> start_ok_frame cfg = Ok d.
Proof.
  unfold plan. cbn [fst op_writes nth_error].
  destruct (start_ok_frame cfg); [|discriminate].
  cbn [round fst op_writes nth_error]. congruence.
Qed.

Lemma plan_third_write (cfg : config) (d : bytes) :
  nth_error (op_writes (fst (plan cfg))) 2 = Some d -> open_frame cfg = Ok d.
Proof.
  unfold plan. cbn [fst op_writes nth_error].
  destruct (start_ok_frame cfg); [|discriminate].
  cbn [round fst op_writes nth_error].
  destruct (open_frame cfg); [|discriminate].
  cbn [round fst op_writes nth_error]. congruence.
Qed.

Lemma plan_fourth_write (cfg : config) (d : bytes) :
  nth_error (op_writes (fst (plan cfg))) 3 = Some d ->
  d = [x01; x00; x01; x00; x00; x00; x04; x00; x14; x00; x0a; xce].
Proof.
  unfold plan. cbn [fst op_writes nth_error].
  destruct (start_ok_frame cfg); [|discriminate].
  cbn [round fst op_writes nth_error].
  destruct (open_frame cfg); [|discriminate].
  cbn [round fst op_writes nth_error].
  rewrite channel_open_frame_value.
  cbn [round fst op_writes nth_error]. congruence.
Qed.

Lemma plan_writes_bound (cfg : config) :
  (List.length (op_writes (fst (plan cfg))) <= 5)%nat.
Proof.
  unfold plan. cbn [fst op_writes List.length].
  destruct (start_ok_frame cfg); cbn [round fst op_writes List.length]; [|lia].
  destruct (open_frame cfg); cbn [round fst op_writes List.length]; [|lia].
  rewrite channel_open_frame_value. cbn [round fst op_writes List.length].
  destruct (declare_frame cfg); cbn [round fst op_writes List.length]; lia.
Qed.

(** X1: the second write of any run is the Start-OK method frame on channel
    0: ids (10,11), the bytes 00 0C "PLAIN", the 4-byte length of the SASL
    response, the response [user 00 user 00 pass] and a final 00. *)
Theorem start_ok_write (net : network) (cfg : config) (d : bytes) :
  nth_error (writes (trace net cfg)) 1 = Some d ->
  exists user pass,
    encode (USER cfg) = Ok user /\ encode (PASS cfg) = Ok pass /\
    d = framed 1 0
          ([x00; x0a; x00; x0b; x00; x0c] ++ bytes_of_string "PLAIN"
             ++ be_bytes 4 (2 * len user + len pass + 2)
             ++ user ++ [x00] ++ user ++ [x00] ++ pass ++ [x00]).
Proof.
  intros H. apply trace_write_in_plan, plan_second_write in H.
  unfold start_ok_frame in H.
  apply rbind_ok_inv in H. destruct H as (user & Eu & H).
  apply rbind_ok_inv in H. destruct H as (pass & Ep & H).
  apply rbind_ok_inv in H. destruct H as (payload & Hpay & H).
  exists user, pass. split; [exact Eu|]. split; [exact Ep|].
  apply frame_bytes_inv in H. destruct H as (-> & _).
  f_equal. unfold start_ok_payload in Hpay.
  rewrite pack_one in Hpay.
  destruct (in_range FI _); [|discriminate Hpay].
  rewrite pack_ids_start_ok in Hpay. cbn [rbind fmt_size] in Hpay.
  rewrite len_plain_response in Hpay.
  replace (len user + len user + len pass + 2)
    with (2 * len user + len pass + 2) in Hpay by lia.
  assert (E : payload =
              [x00; x0a; x00; x0b]
                ++ (([x00; x0c] ++ bytes_of_string "PLAIN")
                      ++ be_bytes 4 (2 * len user + len pass + 2)
                      ++ plain_response user user pass) ++ [x00])
    by congruence.
  rewrite E. unfold plain_response. cbn [join].
  rewrite <- !app_assoc. reflexivity.
Qed.

Lemma start_ok_write_witness :
  exists d user pass,
    nth_error (writes (trace (steady []) shipped_config)) 1 = Some d /\
    encode (USER shipped_config) = Ok user /\
    encode (PASS shipped_config) = Ok pass /\
    d = framed 1 0
          ([x00; x0a; x00; x0b; x00; x0c] ++ bytes_of_string "PLAIN"
             ++ be_bytes 4 (2 * len user + len pass + 2)
             ++ user ++ [x00] ++ user ++ [x00] ++ pass ++ [x00]).
Proof.
  eexists.
  assert (H : nth_error (writes (trace (steady []) shipped_config)) 1 = Some _)
    by reflexivity.
  destruct (start_ok_write (steady []) shipped_config _ H)
    as (user & pass & Eu & Ep & Hd).
  exists user, pass. repeat split; eassumption.
Defined.

(** X2: the third write of any run is the connection.open method frame on
    channel 0: ids (10,40), one byte holding the exact length of the encoded
    VHOST (at most 255), the VHOST, and two zero bytes. *)
Theorem open_write (net : network) (cfg : config) (d : bytes) :
  nth_error (writes (trace net cfg)) 2 = Some d ->
  exists vhost,
    encode (VHOST cfg) = Ok vhost /\ len vhost <= 255 /\
    Z_of_byte (byte_of_Z (len vhost)) = len vhost /\
    d = framed 1 0
          ([x00; x0a; x00; x28; byte_of_Z (len vhost)] ++ vhost ++ [x00; x00]).
Proof.
  intros H. apply trace_write_in_plan, plan_third_write in H.
  unfold open_frame in H.
  apply rbind_ok_inv in H. destruct H as (vhost & Ev & H).
  apply rbind_ok_inv in H. destruct H as (payload & Hpay & H).
  exists vhost. split; [exact Ev|].
  unfold open_payload in Hpay. rewrite pack_ids_open in Hpay.
  destruct (in_range FB (len vhost)) eqn:Er; [|discriminate Hpay].
  apply in_range_spec in Er. change (fmt_bound FB) with 256 in Er.
  split; [lia|]. split.
  - rewrite Z_of_byte_of_Z. apply Z.mod_small. lia.
  - apply frame_bytes_inv in H. destruct H as (-> & _).
    f_equal. cbn [rbind] in Hpay.
    assert (E : payload =
                ([x00; x0a; x00; x28; byte_of_Z (len vhost)] ++ vhost)
                  ++ [x00; x00]) by congruence.
    rewrite E. now rewrite <- app_assoc.
Qed.

Lemma open_write_witness :
  exists d vhost,
    nth_error (writes (trace (steady []) shipped_config)) 2 = Some d /\
    encode (VHOST shipped_config) = Ok vhost /\ len vhost <= 255 /\
    d = framed 1 0
          ([x00; x0a; x00; x28; byte_of_Z (len vhost)] ++ vhost ++ [x00; x00]).
Proof.
  eexists.
  assert (H : nth_error (writes (trace (steady []) shipped_config)) 2 = Some _)
    by reflexivity.
  destruct (open_write (steady []) shipped_config _ H)
    as (vhost & Ev & Hl & _ & Hd).
  exists vhost. repeat split; eassumption.
Defined.

(** X3: the fifth write of any run is the queue.declare method frame on
    channel 1: ids (50,10), the short 1, a zero byte, one byte holding the
    exact length of the encoded QUEUE (at most 255), the QUEUE, and the byte
    0x08. *)
Theorem declare_write (net : network) (cfg : config) (d : bytes) :
  nth_error (writes (trace net cfg)) 4 = Some d ->
  exists qname,
    encode (QUEUE cfg) = Ok qname /\ len qname <= 255 /\
    Z_of_byte (byte_of_Z (len qname)) = len qname /\
    d = framed 1 1
          ([x00; x32; x00; x0a; x00; x01; x00; byte_of_Z (len qname)]
             ++ qname ++ [x08]).
Proof.
  intros H. apply trace_write_in_plan, plan_fifth_write in H.
  unfold declare_frame in H.
  apply rbind_ok_inv in H. destruct H as (qname & Eq & H).
  apply rbind_ok_inv in H. destruct H as (payload & Hpay & H).
  exists qname. split; [exact Eq|].
  unfold declare_payload in Hpay.
  rewrite pack_ids_declare, pack_B, pack_flags in Hpay.
  destruct (in_range FB (len qname)) eqn:Er; [|discriminate Hpay].
  apply in_range_spec in Er. change (fmt_bound FB) with 256 in Er.
  split; [lia|]. split.
  - rewrite Z_of_byte_of_Z. apply Z.mod_small. lia.
  - apply frame_bytes_inv in H. destruct H as (-> & _).
    f_equal. cbn [rbind] in Hpay.
    assert (E : payload =
                ((([x00; x32; x00; x0a; x00; x01] ++ [x00])
                    ++ [byte_of_Z (len qname)]) ++ qname) ++ [x08])
      by congruence.
    rewrite E. rewrite <- !app_assoc. reflexivity.
Qed.

Lemma declare_write_witness :
  exists d qname,
    nth_error (writes (trace (steady []) shipped_config)) 4 = Some d /\
    encode (QUEUE shipped_config) = Ok qname /\ len qname <= 255 /\
    d = framed 1 1
          ([x00; x32; x00; x0a; x00; x01; x00; byte_of_Z (len qname)]
             ++ qname ++ [x08]).
Proof.
  eexists.
  assert (H : nth_error (writes (trace (steady []) shipped_config)) 4 = Some _)
    by reflexivity.
  destruct (declare_write (steady []) shipped_config _ H)
    as (qname & Eq & Hl & _ & Hd).
  exists qname. repeat split; eassumption.
Defined.

(** X4: a run makes at most five writes.  The first is the protocol header;
    each of the others is a method frame (type 1) whose length field is the
    exact length of its payload and which ends in 0xCE, the second and third
    on channel 0, the fourth and fifth on channel 1. *)
Theorem writes_are_frames (net : network) (cfg : config) (i : nat) (d : bytes) :
  nth_error (writes (trace net cfg)) i = Some d ->
  match i with
  | 0%nat => d = protocol_header
  | 1%nat | 2%nat => exists payload, len payload < 2 ^ 32 /\ d = framed 1 0 payload
  | 3%nat | 4%nat => exists payload, len payload < 2 ^ 32 /\ d = framed 1 1 payload
  | _ => False
  end.
Proof.
  intros H. apply trace_write_in_plan in H.
  destruct i as [|[|[|[|[|i]]]]].
  - unfold plan in H. cbn [fst op_writes nth_error] in H. congruence.
  - apply plan_second_write in H. unfold start_ok_frame in H.
    apply rbind_ok_inv in H. destruct H as (user & _ & H).
    apply rbind_ok_inv in H. destruct H as (pass & _ & H).
    apply rbind_ok_inv in H. destruct H as (payload & _ & H).
    apply frame_bytes_inv in H. exists payload. tauto.
  - apply plan_third_write in H. unfold open_frame in H.
    apply rbind_ok_inv in H. destruct H as (vhost & _ & H).
    apply rbind_ok_inv in H. destruct H as (payload & _ & H).
    apply frame_bytes_inv in H. exists payload. tauto.
  - apply plan_fourth_write in H. subst d.
    exists [x00; x14; x00; x0a]. split; [cbn; lia | reflexivity].
  - apply plan_fifth_write in H. unfold declare_frame in H.
    apply rbind_ok_inv in H. destruct H as (qname & _ & H).
    apply rbind_ok_inv in H. destruct H as (payload & _ & H).
    apply frame_bytes_inv in H. exists payload. tauto.
  - pose proof (plan_writes_bound cfg) as Hb.
    assert (Hn : nth_error (op_writes (fst (plan cfg))) (S (S (S (S (S i))))) <> None)
      by congruence.
    apply nth_error_Some in Hn. lia.
Qed.

Lemma writes_are_frames_witness :
  exists payload,
    len payload < 2 ^ 32 /\
    [x01; x00; x01; x00; x00; x00; x04; x00; x14; x00; x0a; xce]
    = framed 1 1 payload.
Proof.
  apply (writes_are_frames (steady []) shipped_config 3). reflexivity.
Defined.

(** ** Failures *)

Section PerformEvents.
Variable net : network.
Variable fin : result unit.

Lemma perform_failure_last (ops : list op) :
  forall ns nr latest pre e post,
    fst (perform net ns nr latest ops fin) = pre ++ e :: post ->
    failed e = true ->
    post = [] /\ snd (perform net ns nr latest ops fin) = Err OSError.
Proof.
  induction ops as [|o ops IH]; intros ns nr latest pre e post; cbn [perform].
  - cbn [fst]. intros H. now destruct pre.
  - destruct o.
    + destruct (connect_ok net); cbn [emit fst snd].
      * destruct pre as [|a pre]; cbn [app]; intros [= <- H]; [discriminate|].
        intros Hf; eapply IH; eassumption.
      * destruct pre as [|a [|b pre]]; cbn [app]; intros [= <- H]; try discriminate.
        subst post. auto.
    + destruct (sendall_ok net ns); cbn [emit fst snd].
      * destruct pre as [|a pre]; cbn [app]; intros [= <- H]; [discriminate|].
        intros Hf; eapply IH; eassumption.
      * destruct pre as [|a [|b pre]]; cbn [app]; intros [= <- H]; try discriminate.
        subst post. auto.
    + destruct (recv_reply net nr); cbn [emit fst snd].
      * destruct pre as [|a pre]; cbn [app]; intros [= <- H]; [discriminate|].
        intros Hf; eapply IH; eassumption.
      * destruct pre as [|a [|b pre]]; cbn [app]; intros [= <- H]; try discriminate.
        subst post. auto.
    + cbn [emit fst snd].
      destruct pre as [|a pre]; cbn [app]; intros [= <- H]; [discriminate|].
      intros Hf; eapply IH; eassumption.
    + cbn [emit fst snd].
      destruct pre as [|a pre]; cbn [app]; intros [= <- H]; [discriminate|].
      intros Hf; eapply IH; eassumption.
Qed.

Lemma perform_close_in (ops : list op) :
  forall ns nr latest,
    In EvClose (fst (perform net ns nr latest ops fin)) -> In OpClose ops.
Proof.
  induction ops as [|o ops IH]; intros ns nr latest; cbn [perform].
  - cbn. tauto.
  - destruct o.
    + destruct (connect_ok net); cbn [emit fst In].
      * intros [H|H]; [discriminate | right; eauto].
      * intros [H|[]]; discriminate.
    + destruct (sendall_ok net ns); cbn [emit fst In].
      * intros [H|H]; [discriminate | right; eauto].
      * intros [H|[]]; discriminate.
    + destruct (recv_reply net nr); cbn [emit fst In].
      * intros [H|H]; [discriminate | right; eauto].
      * intros [H|[]]; discriminate.
    + cbn [emit fst In]. intros [H|H]; [discriminate | right; eauto].
    + cbn [In]. auto.
Qed.

(** Once the last call of a plan, [close], has happened, the rest did. *)
Lemma perform_closed (ops : list op) :
  ~ In OpClose ops ->
  forall ns nr latest,
    In EvClose (fst (perform net ns nr latest (ops ++ [OpClose]) fin)) ->
    snd (perform net ns nr latest (ops ++ [OpClose]) fin) = fin.
Proof.
  induction ops as [|o ops IH]; intros Hn ns nr latest; cbn [app perform].
  - reflexivity.
  - assert (Hn' : ~ In OpClose ops) by (intros H; apply Hn; now right).
    destruct o.
    + destruct (connect_ok net); cbn [emit fst snd In].
      * intros [H|H]; [discriminate | eauto].
      * intros [H|[]]; discriminate.
    + destruct (sendall_ok net ns); cbn [emit fst snd In].
      * intros [H|H]; [discriminate | eauto].
      * intros [H|[]]; discriminate.
    + destruct (recv_reply net nr); cbn [emit fst snd In].
      * intros [H|H]; [discriminate | eauto].
      * intros [H|[]]; discriminate.
    + cbn [emit fst snd In]. intros [H|H]; [discriminate | eauto].
    + exfalso. apply Hn. now left.
Qed.

Lemma perform_ok_closed (ops : list op) :
  forall ns nr latest,
    snd (perform net ns nr latest ops fin) = Ok tt ->
    In OpClose ops ->
    In EvClose (fst (perform net ns nr latest ops fin)).
Proof.
  induction ops as [|o ops IH]; intros ns nr latest; cbn [perform].
  - cbn. tauto.
  - destruct o.
    + destruct (connect_ok net); cbn [emit fst snd In]; [|discriminate].
      intros H [Ho|Ho]; [discriminate | right; eauto].
    + destruct (sendall_ok net ns); cbn [emit fst snd In]; [|discriminate].
      intros H [Ho|Ho]; [discriminate | right; eauto].
    + destruct (recv_reply net nr); cbn [emit fst snd In]; [|discriminate].
      intros H [Ho|Ho]; [discriminate | right; eauto].
    + cbn [emit fst snd In]. intros H [Ho|Ho]; [discriminate | right; eauto].
    + cbn [emit fst snd In]. auto.
Qed.
End PerformEvents.

(** The plan either is the whole handshake or stops at a frame that could
    not be built, before [print] and [close]. *)
Lemma plan_cases (cfg : config) :
  (exists d1 d2 d3 d4,
      plan cfg =
      ([OpConnect (HOST cfg) (PORT cfg);
        OpSend protocol_header; OpRecv 4096;
        OpSend d1; OpRecv 4096;
        OpSend d2; OpRecv 4096;
        OpSend d3; OpRecv 4096;
        OpSend d4; OpRecv 4096;
        OpPrint (str_of_string "Response bytes:")] ++ [OpClose], Ok tt)) \/
  ((exists e, snd (plan cfg) = Err e /\ e <> OSError) /\
   ~ In OpClose (fst (plan cfg)) /\
   forall l, ~ In (OpPrint l) (fst (plan cfg))).
Proof.
  unfold plan.
  destruct (start_ok_frame cfg) as [d1|e1] eqn:E1.
  2:{ right. cbn. split.
      - exists e1. split; [reflexivity|].
        apply start_ok_frame_err in E1. destruct E1 as [-> | ->]; discriminate.
      - split; [|intros l]; intuition discriminate. }
  destruct (open_frame cfg) as [d2|e2] eqn:E2.
  2:{ right. cbn. split.
      - exists e2. split; [reflexivity|].
        unfold open_frame in E2.
        destruct (encode (VHOST cfg)) as [vhost|] eqn:Ev;
          [|apply encode_err in Ev; cbn in E2; congruence].
        cbn [rbind] in E2. unfold open_payload in E2.
        rewrite pack_ids_open in E2.
        destruct (in_range FB _); [|cbn in E2; congruence].
        cbn [rbind] in E2. apply frame_bytes_err in E2; [congruence|lia|lia].
      - split; [|intros l]; intuition discriminate. }
  rewrite channel_open_frame_value.
  destruct (declare_frame cfg) as [d4|e4] eqn:E4.
  2:{ right. cbn. split.
      - exists e4. split; [reflexivity|].
        unfold declare_frame in E4.
        destruct (encode (QUEUE cfg)) as [qname|] eqn:Eq;
          [|apply encode_err in Eq; cbn in E4; congruence].
        cbn [rbind] in E4. unfold declare_payload in E4.
        rewrite pack_ids_declare, pack_B, pack_flags in E4.
        destruct (in_range FB _); [|cbn in E4; congruence].
        cbn [rbind] in E4. apply frame_bytes_err in E4; [congruence|lia|lia].
      - split; [|intros l]; intuition discriminate. }
  left. now exists d1, d2, [x01; x00; x01; x00; x00; x00; x04; x00; x14; x00; x0a; xce], d4.
Qed.

(** X5: the socket is closed exactly when the run ends normally: a run that
    ends in an exception, of whatever kind, never calls [close]. *)
Theorem closed_iff_completed (net : network) (cfg : config) :
  In EvClose (trace net cfg) <-> ending net cfg = Ok tt.
Proof.
  unfold trace, ending. rewrite run_main_plan.
  destruct (plan_cases cfg) as [(d1 & d2 & d3 & d4 & Hp) | ((e & He & _) & Hc & _)].
  - rewrite Hp. cbn [fst snd]. split.
    + apply perform_closed. cbn. intuition discriminate.
    + intros H. apply perform_ok_closed; [exact H|].
      apply in_or_app. right. now left.
  - split.
    + intros H. apply perform_close_in in H. contradiction.
    + intros H. apply perform_ok in H. destruct H as (H & _). congruence.
Qed.

(** X6: every run starts by connecting to (HOST, PORT); when the connection
    is refused that is all that happens, and the run ends in [OSError]. *)
Theorem connect_comes_first (net : network) (cfg : config) :
  exists rest,
    trace net cfg = EvConnect (HOST cfg) (PORT cfg) (connect_ok net) :: rest /\
    (connect_ok net = false -> rest = [] /\ ending net cfg = Err OSError).
Proof.
  unfold trace, ending. rewrite run_main_plan.
  unfold plan. cbn [fst snd perform].
  destruct (connect_ok net).
  - eexists. split; [reflexivity | discriminate].
  - exists []. auto.
Qed.

Lemma connect_comes_first_witness :
  trace refusing shipped_config
    = [EvConnect (HOST shipped_config) (PORT shipped_config) false] /\
  ending refusing shipped_config = Err OSError.
Proof.
  destruct (connect_comes_first refusing shipped_config) as (rest & Ht & Hf).
  destruct (Hf eq_refl) as (Hr & He).
  split; [|exact He]. rewrite Ht, Hr. reflexivity.
Defined.

(** ** Credentials *)

Lemma plan_bad_credentials (cfg : config) :
  start_ok_frame cfg = Err UnicodeEncodeError ->
  plan cfg =
  ([OpConnect (HOST cfg) (PORT cfg); OpSend protocol_header; OpRecv 4096],
   Err UnicodeEncodeError).
Proof.
  intros H. unfold plan. rewrite H. reflexivity.
Qed.

(** X8: the credentials are encoded only after the connection is up and the
    header has been written and answered: when USER or PASS does not encode,
    a run writes the protocol header at most and never ends normally; if no
    socket call raises it writes exactly the header and ends in
    [UnicodeEncodeError]. *)
Theorem bad_credentials_after_header (net : network) (cfg : config) :
  encode (USER cfg) = Err UnicodeEncodeError \/
  encode (PASS cfg) = Err UnicodeEncodeError ->
  is_prefix (writes (trace net cfg)) [protocol_header] /\
  ending net cfg <> Ok tt /\
  (fault_free net ->
   writes (trace net cfg) = [protocol_header] /\
   ending net cfg = Err UnicodeEncodeError).
Proof.
  intros H.
  assert (Hs : start_ok_frame cfg = Err UnicodeEncodeError).
  { unfold start_ok_frame. destruct H as [H|H].
    - now rewrite H.
    - destruct (encode (USER cfg)) as [user|e] eqn:Eu.
      + cbn [rbind]. now rewrite H.
      + apply encode_err in Eu. now subst e. }
  apply plan_bad_credentials in Hs.
  unfold trace, ending. rewrite run_main_plan, Hs. cbn [fst snd].
  split; [|split].
  - apply (perform_writes_prefix net _
             [OpConnect (HOST cfg) (PORT cfg); OpSend protocol_header; OpRecv 4096]).
  - intros Hok. apply perform_ok in Hok. destruct Hok as (Hok & _). discriminate.
  - intros Hf.
    destruct (perform_fault_free net (Err UnicodeEncodeError)
                [OpConnect (HOST cfg) (PORT cfg); OpSend protocol_header; OpRecv 4096]
                Hf 0%nat 0%nat []) as (He & _ & Hw).
    split; assumption.
Qed.

Lemma bad_credentials_after_header_witness :
  writes (trace (steady []) surrogate_user_config) = [protocol_header] /\
  ending (steady []) surrogate_user_config = Err UnicodeEncodeError.
Proof.
  apply (bad_credentials_after_header (steady []) surrogate_user_config).
  - left. reflexivity.
  - apply steady_fault_free.
Defined.

Lemma split_at_first_nul (a1 a2 r1 r2 : bytes) :
  ~ In x00 a1 -> ~ In x00 a2 ->
  a1 ++ x00 :: r1 = a2 ++ x00 :: r2 -> a1 = a2 /\ r1 = r2.
Proof.
  revert a2. induction a1 as [|x a1 IH]; intros [|y a2] H1 H2; cbn [app].
  - intros [= <-]. auto.
  - intros [= <- _]. exfalso. apply H2. now left.
  - intros [= -> _]. exfalso. apply H1. now left.
  - intros [= <- H].
    destruct (IH a2) as (-> & ->); auto.
    + intros Hin. apply H1. now right.
    + intros Hin. apply H2. now right.
Qed.

(** X9: the SASL response determines its three fields as long as the first
    two contain no zero byte; nothing in the script rejects a zero byte, and
    with one the response is ambiguous: user "" with password 00 00 and user
    00 with password "" give the same four bytes. *)
Theorem plain_response_unambiguous :
  (forall a1 c1 p1 a2 c2 p2 : bytes,
      ~ In x00 a1 -> ~ In x00 c1 -> ~ In x00 a2 -> ~ In x00 c2 ->
      plain_response a1 c1 p1 = plain_response a2 c2 p2 ->
      a1 = a2 /\ c1 = c2 /\ p1 = p2) /\
  plain_response [] [] [x00; x00] = plain_response [x00] [x00] [].
Proof.
  split; [|reflexivity].
  intros a1 c1 p1 a2 c2 p2 Ha1 Hc1 Ha2 Hc2.
  unfold plain_response. cbn [join app].
  intros H.
  apply split_at_first_nul in H; try assumption. destruct H as (-> & H).
  apply split_at_first_nul in H; try assumption. destruct H as (-> & ->).
  auto.
Qed.

Lemma plain_response_unambiguous_witness :
  [x75] = [x75] /\ [x75] = [x75] /\ [x70] = [x70].
Proof.
  apply (proj1 plain_response_unambiguous [x75] [x75] [x70] [x75] [x75] [x70]);
    try reflexivity;
    (intros [H|[]]; discriminate H).
Defined.

(** ** str.encode and the lengths of the fields *)

Lemma utf8_encode_cp_length (cp : N) (bs : bytes) :
  utf8_encode_cp cp = Some bs -> 1 <= len bs <= 4.
Proof.
  unfold utf8_encode_cp.
  destruct (Z.of_N cp <? 128); [intros [= <-]; cbn; lia|].
  destruct (Z.of_N cp <? 2048); [intros [= <-]; cbn; lia|].
  destruct (Z.of_N cp <? 65536).
  - destruct (_ && _); [discriminate|]. intros [= <-]. cbn. lia.
  - destruct (Z.of_N cp <? 1114112); [|discriminate].
    intros [= <-]. cbn. lia.
Qed.

Lemma encode_length (s : pystr) (b : bytes) :
  encode s = Ok b -> len s <= len b <= 4 * len s.
Proof.
  revert b. induction s as [|cp s IH]; intros b; cbn [encode].
  - intros [= <-]. cbn. lia.
  - destruct (utf8_encode_cp cp) as [bs|] eqn:E; [|discriminate].
    destruct (encode s) as [rest|]; [|discriminate].
    cbn [rbind]. intros H. assert (Hb : b = bs ++ rest) by congruence. subst b.
    apply utf8_encode_cp_length in E. specialize (IH rest eq_refl).
    rewrite len_app, len_cons. lia.
Qed.

Lemma encode_ascii (s : pystr) :
  is_ascii s -> encode s = Ok (ascii_bytes s).
Proof.
  induction 1 as [|cp s Hcp Hs IH]; [reflexivity|].
  cbn [encode ascii_bytes map]. unfold utf8_encode_cp.
  assert (E : (Z.of_N cp <? 128) = true) by (apply Z.ltb_lt; lia).
  rewrite E, IH. reflexivity.
Qed.

Lemma len_ascii_bytes (s : pystr) : len (ascii_bytes s) = len s.
Proof. unfold ascii_bytes, len. now rewrite length_map. Qed.

Lemma plan_open_failed (cfg : config) (e : exn) :
  open_frame cfg = Err e ->
  is_prefix (op_steps (fst (plan cfg)))
            [StSend KHeader; StRecv; StSend (KMethod 10 11); StRecv] /\
  exists e', snd (plan cfg) = Err e'.
Proof.
  intros Hv. unfold plan. cbn [fst snd op_steps].
  change (classify protocol_header) with KHeader.
  destruct (start_ok_frame cfg) as [d1|e1] eqn:E1.
  - cbn [round fst snd op_steps]. rewrite Hv, (start_ok_frame_kind _ _ E1).
    cbn [round fst snd op_steps].
    split; [apply is_prefix_refl | eauto].
  - cbn [round fst snd op_steps].
    split; [do 2 apply is_prefix_cons; apply is_prefix_nil | eauto].
Qed.

(** X10: a VHOST of more than 255 characters, whatever the characters are,
    never gets a connection.open frame onto the wire and never lets a run
    end normally. *)
Theorem long_vhost_never_opens (net : network) (cfg : config) :
  255 < len (VHOST cfg) ->
  ~ In (StSend (KMethod 10 40)) (steps (trace net cfg)) /\
  ending net cfg <> Ok tt.
Proof.
  intros Hl.
  assert (He : exists e, open_frame cfg = Err e).
  { destruct (encode (VHOST cfg)) as [vhost|e] eqn:Ev.
    - exists (StructRange FB). apply open_frame_too_long.
      exists vhost. split; [exact Ev|]. apply encode_length in Ev. lia.
    - exists e. unfold open_frame. now rewrite Ev. }
  destruct He as [e He]. apply plan_open_failed in He.
  destruct He as (Hp & e' & He').
  unfold trace, ending. rewrite run_main_plan. split.
  - intros H.
    apply (is_prefix_In _ _ _ (perform_steps_prefix net _ _ _ _ _)) in H.
    apply (is_prefix_In _ _ _ Hp) in H.
    cbn in H. intuition discriminate.
  - intros H. apply perform_ok in H. destruct H as (H & _). congruence.
Qed.

Lemma long_vhost_never_opens_witness :
  ~ In (StSend (KMethod 10 40)) (steps (trace (steady []) long_vhost_config)) /\
  ending (steady []) long_vhost_config <> Ok tt.
Proof.
  apply (long_vhost_never_opens (steady []) long_vhost_config).
  vm_compute. reflexivity.
Defined.

(** X11: with ASCII fields, a VHOST and a QUEUE of at most 255 characters
    and credentials that keep Start-OK below 2^32 bytes, a run in which no
    socket call raises makes all five writes and ends normally. *)
Theorem ascii_config_completes (net : network) (cfg : config) :
  is_ascii (USER cfg) -> is_ascii (PASS cfg) ->
  is_ascii (VHOST cfg) -> is_ascii (QUEUE cfg) ->
  2 * len (USER cfg) + len (PASS cfg) + 18 < 2 ^ 32 ->
  len (VHOST cfg) <= 255 -> len (QUEUE cfg) <= 255 ->
  fault_free net ->
  ending net cfg = Ok tt /\ List.length (writes (trace net cfg)) = 5%nat.
Proof.
  intros Hu Hp Hv Hq Hn Hlv Hlq Hf.
  assert (Hw : well_sized cfg).
  { split; [|split].
    - exists (ascii_bytes (USER cfg)), (ascii_bytes (PASS cfg)).
      rewrite !len_ascii_bytes. auto using encode_ascii.
    - exists (ascii_bytes (VHOST cfg)).
      rewrite len_ascii_bytes. auto using encode_ascii.
    - exists (ascii_bytes (QUEUE cfg)).
      rewrite len_ascii_bytes. auto using encode_ascii. }
  destruct (run_well_sized net cfg Hw Hf)
    as (d1 & d2 & d3 & d4 & r0 & r1 & r2 & r3 & r4 & _ & _ & _ & _ &
        _ & _ & _ & _ & _ & Hrun).
  unfold ending, trace. rewrite Hrun. split; reflexivity.
Qed.

Lemma shipped_config_ascii :
  is_ascii (USER shipped_config) /\ is_ascii (PASS shipped_config) /\
  is_ascii (VHOST shipped_config) /\ is_ascii (QUEUE shipped_config).
Proof.
  repeat split; repeat constructor.
Defined.

Lemma ascii_config_completes_witness :
  ending (steady [xff]) shipped_config = Ok tt /\
  List.length (writes (trace (steady [xff]) shipped_config)) = 5%nat.
Proof.
  destruct shipped_config_ascii as (Hu & Hp & Hv & Hq).
  apply (ascii_config_completes (steady [xff]) shipped_config Hu Hp Hv Hq).
  - cbn. lia.
  - cbn. lia.
  - cbn. lia.
  - apply steady_fault_free.
Defined.

(** ** What is printed *)

Lemma perform_print_in (net : network) (fin : result unit) (ops : list op)
    (l : pystr) (data : bytes) :
  forall ns nr latest,
    In (EvPrint l data) (fst (perform net ns nr latest ops fin)) ->
    In (OpPrint l) ops.
Proof.
  induction ops as [|o ops IH]; intros ns nr latest; cbn [perform].
  - cbn. tauto.
  - destruct o.
    + destruct (connect_ok net); cbn [emit fst In].
      * intros [H|H]; [discriminate | right; eauto].
      * intros [H|[]]; discriminate.
    + destruct (sendall_ok net ns); cbn [emit fst In].
      * intros [H|H]; [discriminate | right; eauto].
      * intros [H|[]]; discriminate.
    + destruct (recv_reply net nr); cbn [emit fst In].
      * intros [H|H]; [discriminate | right; eauto].
      * intros [H|[]]; discriminate.
    + cbn [emit fst In]. intros [H|H]; [left; congruence | right; eauto].
    + cbn [emit fst In]. intros [H|H]; [discriminate | right; eauto].
Qed.

Ltac pass_event :=
  cbn [emit fst snd In]; intros [H|H]; [discriminate H|]; revert H.

Ltac stop_event :=
  cbn [fst In]; intros [H|[]]; discriminate H.

(** X12: the script prints at most what the fifth [recv] returned: whenever
    a run prints, the label is "Response bytes:", the data are the first
    4096 bytes of the broker's fifth reply, and the run ends normally. *)
Theorem printed_reply (net : network) (cfg : config) (l : pystr) (data : bytes) :
  In (EvPrint l data) (trace net cfg) ->
  l = str_of_string "Response bytes:" /\
  (exists r, recv_reply net 4 = Some r /\ data = firstn 4096 r) /\
  ending net cfg = Ok tt.
Proof.
  unfold trace, ending. rewrite run_main_plan.
  destruct (plan_cases cfg) as [(d1 & d2 & d3 & d4 & Hp) | (_ & _ & Hn)].
  2:{ intros H. apply perform_print_in in H. now apply Hn in H. }
  rewrite Hp. cbn [fst snd app perform].
  destruct (connect_ok net); [pass_event | stop_event].
  destruct (sendall_ok net 0); [pass_event | stop_event].
  destruct (recv_reply net 0); [pass_event | stop_event].
  destruct (sendall_ok net 1); [pass_event | stop_event].
  destruct (recv_reply net 1); [pass_event | stop_event].
  destruct (sendall_ok net 2); [pass_event | stop_event].
  destruct (recv_reply net 2); [pass_event | stop_event].
  destruct (sendall_ok net 3); [pass_event | stop_event].
  destruct (recv_reply net 3); [pass_event | stop_event].
  destruct (sendall_ok net 4); [pass_event | stop_event].
  destruct (recv_reply net 4) as [r4|]; [pass_event | stop_event].
  cbn [emit fst snd In]. intros [H|[H|[]]]; [|discriminate H].
  assert (Hl : str_of_string "Response bytes:" = l) by congruence.
  assert (Hd : firstn (Z.to_nat 4096) r4 = data) by congruence.
  split; [now symmetry|]. split; [|reflexivity].
  exists r4. split; [reflexivity|]. now symmetry.
Qed.

Lemma printed_reply_witness :
  exists r, recv_reply (steady [xff; xfe]) 4 = Some r /\
            [xff; xfe] = firstn 4096 r.
Proof.
  apply (printed_reply (steady [xff; xfe]) shipped_config
           (str_of_string "Response bytes:") [xff; xfe]).
  unfold trace. cbn. tauto.
Defined.

(** ** struct.pack *)

(** X13: packing one value with a '!' format gives, for a value within the
    range of the code, as many bytes as the code is wide, and they are the
    value in big-endian; for any other value it raises [struct.error]. *)
Theorem pack_value (f : fmt) (v : Z) :
  (0 <= v < fmt_bound f ->
   exists b, pack [f] [v] = Ok b /\
             List.length b = fmt_size f /\ be_int b = v) /\
  (~ 0 <= v < fmt_bound f -> pack [f] [v] = Err (StructRange f)).
Proof.
  rewrite pack_one. split.
  - intros Hv. rewrite in_range_true by exact Hv.
    exists (be_bytes (fmt_size f) v).
    split; [reflexivity|]. split; [apply length_be_bytes|].
    apply be_int_be_bytes_small. exact Hv.
  - intros Hv. destruct (in_range f v) eqn:E; [|reflexivity].
    apply in_range_spec in E. contradiction.
Qed.

Lemma pack_value_witness :
  (exists b, pack [FI] [20] = Ok b /\
             List.length b = fmt_size FI /\ be_int b = 20) /\
  pack [FB] [256] = Err (StructRange FB).
Proof.
  split.
  - apply (proj1 (pack_value FI 20)). cbn. lia.
  - apply (proj2 (pack_value FB 256)). cbn. lia.
Defined.
